(** * Expense Tracker API: the reporting and aggregation engine

    A shallow embedding of the four report handlers of
    [src/controllers/reportController.ts] (getCategoryReport,
    getMonthlyReport, getExpenseTrends, getExpenseSummary), of the query
    schema they validate with ([reportQuerySchema] of
    [src/utils/validation.ts]) and of the [Expense] model they read.

    Modelling conventions.
    - A JavaScript / BSON number is an exact rational ([Q]); binary floating
      point error is not modelled.  Counts and lengths are [nat].
    - A [Date] is its time value: milliseconds since the epoch, an integer
      ([Z]), with no upper or lower limit.  The server's time zone is a fixed
      offset [tz] (local time minus UTC, in milliseconds).
    - The MongoDB aggregation stages are modelled from their documented
      meaning: [$match] is a filter, [$group] makes one document per distinct
      key, [$round] rounds half to even, [$sort] sorts, [$limit] keeps a
      prefix.  MongoDB leaves the order of groups and of ties unspecified;
      here groups come in order of first occurrence and the sort is stable.
      Date operators ([$year], [$month], [$dayOfMonth]) work in UTC.
    - A handler is a computation in a small state monad over a [World]: the
      record store, the wall clock ([new Date()]) and the log of store calls.
      [res.status(c).json(b)] is the value the handler returns.  A failing
      store call, which the handlers pass to [next(error)], is not
      modelled: the store always answers.  *)

From stdpp Require Import base list numbers strings gmap sorting.
From Stdlib Require Import Ascii ZArith QArith Qround Qabs Qminmax Lqa Lia.

Local Open Scope Z_scope.

(** ** Numbers and rounding *)

(** [Math.round]: the nearest integer, halves towards plus infinity. *)
Definition Math_round (x : Q) : Z := Qfloor (x + (1 # 2))%Q.

(** [Math.round(x * 100) / 100], the rounding idiom of the handlers. *)
Definition round2 (x : Q) : Q := (inject_Z (Math_round (x * 100)) / 100)%Q.

(** MongoDB's [{ $round: [x, 2] }]: two decimal places, halves to even. *)
Definition mongo_round2 (x : Q) : Q :=
  let y := (x * 100)%Q in
  let f := Qfloor y in
  let n := match (y - inject_Z f ?= 1 # 2)%Q with
           | Lt => f
           | Gt => f + 1
           | Eq => if Z.even f then f else f + 1
           end in
  (inject_Z n / 100)%Q.


(** [x] has at most two decimal places. *)
Definition two_places (x : Q) : Prop := exists k : Z, (x == inject_Z k / 100)%Q.

Definition of_nat (n : nat) : Q := inject_Z (Z.of_nat n).

(** [l.reduce((sum, x) => sum + x, 0)] and the [$sum] accumulator. *)
Definition sumQ (l : list Q) : Q := foldl Qplus 0%Q l.

(** ** Calendar arithmetic (proleptic Gregorian, as ECMAScript and BSON) *)

Definition msPerDay : Z := 86400000.

(** Day number and time within the day of a time value. *)
Definition Day (t : Z) : Z := t / msPerDay.
Definition TimeWithinDay (t : Z) : Z := t mod msPerDay.

(** Position inside a 400-year era (146097 days, counted from March 1):
    year of the era, month (1..12) and day of the month. *)
Definition civil_of_doe (doe : Z) : Z * Z * Z :=
  let yoe := (doe - doe / 1460 + doe / 36524 - doe / 146096) / 365 in
  let doy := doe - (365 * yoe + yoe / 4 - yoe / 100) in
  let mp := (5 * doy + 2) / 153 in
  let d := doy - (153 * mp + 2) / 5 + 1 in
  let m := if mp <? 10 then mp + 3 else mp - 9 in
  (yoe, m, d).

Definition doe_of_civil (yoe m d : Z) : Z :=
  let doy := (153 * (if 2 <? m then m - 3 else m + 9) + 2) / 5 + d - 1 in
  yoe * 365 + yoe / 4 - yoe / 100 + doy.

(** Year, month (1..12) and day of the month of a day number. *)
Definition civil_from_days (z : Z) : Z * Z * Z :=
  let z' := z + 719468 in
  let era := z' / 146097 in
  let doe := z' - era * 146097 in
  let '(yoe, m, d) := civil_of_doe doe in
  (yoe + era * 400 + (if m <=? 2 then 1 else 0), m, d).

(** Day number of a civil date. *)
Definition days_from_civil (y m d : Z) : Z :=
  let y' := if m <=? 2 then y - 1 else y in
  let era := y' / 400 in
  let yoe := y' - era * 400 in
  era * 146097 + doe_of_civil yoe m d - 719468.

Definition YearFromTime (t : Z) : Z := (civil_from_days (Day t)).1.1.
(** [MonthFromTime] is zero-based, as in ECMAScript. *)
Definition MonthFromTime (t : Z) : Z := (civil_from_days (Day t)).1.2 - 1.
Definition DateFromTime (t : Z) : Z := (civil_from_days (Day t)).2.

(** [MakeDay(year, month, date)]: [month] is zero-based and may overflow
    into the neighbouring years, [date] may fall outside the month. *)
Definition MakeDay (year month date : Z) : Z :=
  let ym := year + month / 12 in
  let mn := month mod 12 in
  days_from_civil ym (mn + 1) 1 + date - 1.

Definition MakeDate (day time : Z) : Z := day * msPerDay + time.

Definition LocalTime (tz t : Z) : Z := t + tz.
Definition UTC (tz t : Z) : Z := t - tz.

(** [new Date(year, monthIndex, day)]: midnight local time; a year from 0
    to 99 means 1900 + year. *)
Definition Date_of_parts (tz year monthIndex day : Z) : Z :=
  let yr := if (0 <=? year) && (year <=? 99) then 1900 + year else year in
  UTC tz (MakeDate (MakeDay yr monthIndex day) 0).

Definition getFullYear (tz t : Z) : Z := YearFromTime (LocalTime tz t).
Definition getMonth (tz t : Z) : Z := MonthFromTime (LocalTime tz t).
Definition getDate (tz t : Z) : Z := DateFromTime (LocalTime tz t).

(** [d.setDate(dt)]: same local year, month and time of day, day [dt]. *)
Definition setDate (tz t dt : Z) : Z :=
  let lt := LocalTime tz t in
  UTC tz (MakeDate (MakeDay (YearFromTime lt) (MonthFromTime lt) dt) (TimeWithinDay lt)).

(** The aggregation date operators, in UTC. *)
Definition mongo_year (t : Z) : Z := YearFromTime t.
Definition mongo_month (t : Z) : Z := MonthFromTime t + 1.
Definition mongo_dayOfMonth (t : Z) : Z := DateFromTime t.
Definition mongo_dateFromParts (y m d : Z) : Z := MakeDate (days_from_civil y m d) 0.

(** Checks a predicate on the [2 ^ k] integers from [lo] on. *)
Fixpoint all_in_block (k : nat) (f : Z -> bool) (lo : Z) : bool :=
  match k with
  | O => f lo
  | S k' => all_in_block k' f lo && all_in_block k' f (lo + 2 ^ Z.of_nat k')
  end.

(** What the calendar proofs need of one day of an era. *)
Definition doe_ok (doe : Z) : bool :=
  let '(yoe, m, d) := civil_of_doe doe in
  (0 <=? yoe) && (yoe <? 400) && (1 <=? m) && (m <=? 12)
  && (1 <=? d) && (d <=? 31) && (doe_of_civil yoe m d =? doe).

(** [x < y] on numbers, as a boolean. *)
Definition Qltb (x y : Q) : bool :=
  match (x ?= y)%Q with Lt => true | _ => false end.

(** ** The Expense model ([src/models/Expense.ts]) *)

Inductive ExpenseCategory : Set :=
  | FOOD | TRANSPORTATION | ENTERTAINMENT | HEALTHCARE | SHOPPING
  | UTILITIES | EDUCATION | TRAVEL | OTHER.

#[global] Instance ExpenseCategory_eq_dec : EqDecision ExpenseCategory.
Proof. solve_decision. Defined.

(** The display value of each member of the enumeration. *)
Definition category_name (c : ExpenseCategory) : string :=
  match c with
  | FOOD => "Food" | TRANSPORTATION => "Transportation"
  | ENTERTAINMENT => "Entertainment" | HEALTHCARE => "Healthcare"
  | SHOPPING => "Shopping" | UTILITIES => "Utilities"
  | EDUCATION => "Education" | TRAVEL => "Travel" | OTHER => "Other"
  end.

Definition all_categories : list ExpenseCategory :=
  [FOOD; TRANSPORTATION; ENTERTAINMENT; HEALTHCARE; SHOPPING;
   UTILITIES; EDUCATION; TRAVEL; OTHER].

(** A stored expense document ([IExpense]); object ids are strings. *)
Record IExpense : Type := mkExpense {
  e_id : string;
  e_title : string;
  e_amount : Q;
  e_date : Z;
  e_category : ExpenseCategory;
  e_notes : option string;
  e_userId : string;
  e_createdAt : Z;
  e_updatedAt : Z;
}.

(** The schema's constraint on amounts: [min: 0.01], [max: 1000000]. *)
Definition valid_amount (e : IExpense) : Prop :=
  (1 # 100 <= e_amount e)%Q /\ (e_amount e <= 1000000)%Q.

(** ** Aggregation stages *)

(** The distinct values of a list, in order of first occurrence. *)
Fixpoint distinct {K} `{EqDecision K} (l : list K) : list K :=
  match l with
  | [] => []
  | k :: l' => k :: filter (fun k' => k' <> k) (distinct l')
  end.

(** [$group]: the documents of each distinct key, in document order. *)
Definition group_by {A K} `{EqDecision K} (key : A -> K) (docs : list A)
  : list (K * list A) :=
  (fun k => (k, filter (fun d => key d = k) docs)) <$> distinct (key <$> docs).

(** [$sort]: a stable insertion sort; [le x y] says [x] may precede [y]. *)
Fixpoint insert_sorted {A} (le : A -> A -> bool) (x : A) (l : list A) : list A :=
  match l with
  | [] => [x]
  | y :: l' => if le x y then x :: l else y :: insert_sorted le x l'
  end.

Definition sort_by {A} (le : A -> A -> bool) (l : list A) : list A :=
  foldr (insert_sorted le) [] l.

(** The [$avg] accumulator over a group (never empty). *)
Definition avgQ (l : list Q) : Q := (sumQ l / of_nat (length l))%Q.

(** The [$min] and [$max] accumulators over a group (never empty). *)
Definition minQ (l : list Q) : Q :=
  match l with [] => 0%Q | x :: l' => foldl Qmin x l' end.
Definition maxQ (l : list Q) : Q :=
  match l with [] => 0%Q | x :: l' => foldl Qmax x l' end.

(** ** Category report: the pipeline of getCategoryReport *)

(** One element of the [expenses] array pushed by the [$group] stage. *)
Record ExpenseRef : Type := mkExpenseRef {
  x_id : string;
  x_title : string;
  x_amount : Q;
  x_date : Z;
}.

Definition expense_ref (e : IExpense) : ExpenseRef :=
  {| x_id := e_id e; x_title := e_title e; x_amount := e_amount e; x_date := e_date e |}.

(** A document after [$group] and, with rounded figures, after [$project]. *)
Record CategoryTotal : Type := mkCategoryTotal {
  ct_category : ExpenseCategory;
  ct_totalAmount : Q;
  ct_count : nat;
  ct_avgAmount : Q;
  ct_expenses : list ExpenseRef;
}.

Definition match_category (userId : string) (startDate endDate : Z)
    (db : list IExpense) : list IExpense :=
  filter (fun e => e_userId e = userId /\ startDate <= e_date e /\ e_date e <= endDate) db.

(** The accumulators of the [$group] stage, over the documents of a key. *)
Definition category_group (kg : ExpenseCategory * list IExpense) : CategoryTotal :=
  {| ct_category := kg.1;
     ct_totalAmount := sumQ (e_amount <$> kg.2);
     ct_count := length kg.2;
     ct_avgAmount := avgQ (e_amount <$> kg.2);
     ct_expenses := expense_ref <$> kg.2 |}.

Definition group_category (docs : list IExpense) : list CategoryTotal :=
  category_group <$> group_by e_category docs.

Definition project_category (g : CategoryTotal) : CategoryTotal :=
  {| ct_category := ct_category g;
     ct_totalAmount := mongo_round2 (ct_totalAmount g);
     ct_count := ct_count g;
     ct_avgAmount := mongo_round2 (ct_avgAmount g);
     ct_expenses := ct_expenses g |}.

(** [{ $sort: { totalAmount: -1 } }] *)
Definition by_totalAmount_desc {A} (total : A -> Q) (a b : A) : bool :=
  Qle_bool (total b) (total a).

Definition categoryTotals (userId : string) (startDate endDate : Z)
    (db : list IExpense) : list CategoryTotal :=
  sort_by (by_totalAmount_desc ct_totalAmount)
    (project_category <$> group_category (match_category userId startDate endDate db)).

(** An entry of [categoryBreakdown]: the aggregated document spread, plus
    its percentage. *)
Record CategoryReportItem : Type := mkCategoryReportItem {
  cri_category : ExpenseCategory;
  cri_totalAmount : Q;
  cri_count : nat;
  cri_avgAmount : Q;
  cri_expenses : list ExpenseRef;
  cri_percentage : Q;
}.

Record CategorySummary : Type := mkCategorySummary {
  cs_grandTotal : Q;
  cs_totalCount : nat;
  cs_avgExpense : Q;
  cs_categoriesCount : nat;
}.

Record CategoryReportResponse : Type := mkCategoryReportResponse {
  cr_dateRange : Z * Z;
  cr_summary : CategorySummary;
  cr_categoryBreakdown : list CategoryReportItem;
}.

(** The grand totals the handler computes from the aggregated documents. *)
Definition grandTotal_of (cts : list CategoryTotal) : Q :=
  foldl (fun sum c => (sum + ct_totalAmount c)%Q) 0%Q cts.

Definition totalCount_of (cts : list CategoryTotal) : nat :=
  foldl (fun sum c => (sum + ct_count c)%nat) 0%nat cts.

Definition with_percentage (grandTotal : Q) (c : CategoryTotal) : CategoryReportItem :=
  {| cri_category := ct_category c;
     cri_totalAmount := ct_totalAmount c;
     cri_count := ct_count c;
     cri_avgAmount := ct_avgAmount c;
     cri_expenses := ct_expenses c;
     cri_percentage :=
       if Qltb 0 grandTotal
       then (inject_Z (Math_round (ct_totalAmount c / grandTotal * 100 * 100)) / 100)%Q
       else 0%Q |}.

(** The body of getCategoryReport after the aggregation has returned. *)
Definition categoryReport_of (startDate endDate : Z) (cts : list CategoryTotal)
  : CategoryReportResponse :=
  let grandTotal := grandTotal_of cts in
  let totalCount := totalCount_of cts in
  let categoriesWithPercentage := with_percentage grandTotal <$> cts in
  {| cr_dateRange := (startDate, endDate);
     cr_summary :=
       {| cs_grandTotal := round2 grandTotal;
          cs_totalCount := totalCount;
          cs_avgExpense :=
            if (0 <? totalCount)%nat then round2 (grandTotal / of_nat totalCount) else 0%Q;
          cs_categoriesCount := length cts |};
     cr_categoryBreakdown := categoriesWithPercentage |}.

(** The category report of a user over a record set. *)
Definition categoryReport (userId : string) (startDate endDate : Z)
    (db : list IExpense) : CategoryReportResponse :=
  categoryReport_of startDate endDate (categoryTotals userId startDate endDate db).

(** ** Monthly report: the pipeline of getMonthlyReport *)

Record MonthlyTotal : Type := mkMonthlyTotal {
  mt_month : Z;
  mt_totalAmount : Q;
  mt_count : nat;
  mt_avgAmount : Q;
}.

(** [$gte: new Date(year, 0, 1)], [$lte: new Date(year, 11, 31)] *)
Definition match_monthly (tz : Z) (userId : string) (year : Z)
    (db : list IExpense) : list IExpense :=
  filter (fun e => e_userId e = userId
                   /\ Date_of_parts tz year 0 1 <= e_date e
                   /\ e_date e <= Date_of_parts tz year 11 31) db.

Definition month_group (kg : Z * list IExpense) : MonthlyTotal :=
  {| mt_month := kg.1;
     mt_totalAmount := sumQ (e_amount <$> kg.2);
     mt_count := length kg.2;
     mt_avgAmount := avgQ (e_amount <$> kg.2) |}.

(** [_id: { $month: "$date" }] *)
Definition month_key (e : IExpense) : Z := mongo_month (e_date e).

Definition group_monthly (docs : list IExpense) : list MonthlyTotal :=
  month_group <$> group_by month_key docs.

Definition project_monthly (g : MonthlyTotal) : MonthlyTotal :=
  {| mt_month := mt_month g;
     mt_totalAmount := mongo_round2 (mt_totalAmount g);
     mt_count := mt_count g;
     mt_avgAmount := mongo_round2 (mt_avgAmount g) |}.

Definition monthlyTotals (tz : Z) (userId : string) (year : Z)
    (db : list IExpense) : list MonthlyTotal :=
  sort_by (fun a b => mt_month a <=? mt_month b)
    (project_monthly <$> group_monthly (match_monthly tz userId year db)).

Definition monthNames : list string :=
  ["January"; "February"; "March"; "April"; "May"; "June"; "July";
   "August"; "September"; "October"; "November"; "December"].

Record MonthlyReportItem : Type := mkMonthlyReportItem {
  mri_month : Z;
  mri_monthName : string;
  mri_totalAmount : Q;
  mri_count : nat;
  mri_avgAmount : Q;
}.

(** [l.find(p)]: the first element that satisfies [p]. *)
Definition array_find {A} (P : A -> Prop) `{forall x, Decision (P x)} (l : list A)
  : option A := snd <$> list_find P l.

(** Fill in missing months. *)
Definition completeMonthlyData (mts : list MonthlyTotal) : list MonthlyReportItem :=
  imap (fun index name =>
          let monthData := array_find (fun m => mt_month m = Z.of_nat index + 1) mts in
          {| mri_month := Z.of_nat index + 1;
             mri_monthName := name;
             mri_totalAmount := from_option mt_totalAmount 0%Q monthData;
             mri_count := from_option mt_count 0%nat monthData;
             mri_avgAmount := from_option mt_avgAmount 0%Q monthData |})
       monthNames.

Record MonthlySummary : Type := mkMonthlySummary {
  ms_yearlyTotal : Q;
  ms_yearlyCount : nat;
  ms_monthlyAverage : Q;
  ms_activeMonths : nat;
}.

Record MonthlyReportResponse : Type := mkMonthlyReportResponse {
  mr_year : Z;
  mr_summary : MonthlySummary;
  mr_monthlyBreakdown : list MonthlyReportItem;
}.

Definition yearlyTotal_of (mts : list MonthlyTotal) : Q :=
  foldl (fun sum m => (sum + mt_totalAmount m)%Q) 0%Q mts.

Definition yearlyCount_of (mts : list MonthlyTotal) : nat :=
  foldl (fun sum m => (sum + mt_count m)%nat) 0%nat mts.

(** The body of getMonthlyReport after the aggregation has returned. *)
Definition monthlyReport_of (year : Z) (mts : list MonthlyTotal) : MonthlyReportResponse :=
  let yearlyTotal := yearlyTotal_of mts in
  let yearlyCount := yearlyCount_of mts in
  {| mr_year := year;
     mr_summary :=
       {| ms_yearlyTotal := round2 yearlyTotal;
          ms_yearlyCount := yearlyCount;
          ms_monthlyAverage := round2 (yearlyTotal / 12);
          ms_activeMonths := length mts |};
     mr_monthlyBreakdown := completeMonthlyData mts |}.

(** The monthly report of a user for a year over a record set. *)
Definition monthlyReport (tz : Z) (userId : string) (year : Z)
    (db : list IExpense) : MonthlyReportResponse :=
  monthlyReport_of year (monthlyTotals tz userId year db).

(** ** Trend report: the pipelines of getExpenseTrends *)

(** [{ userId, date: { $gte: startDate } }] *)
Definition match_since (userId : string) (startDate : Z)
    (db : list IExpense) : list IExpense :=
  filter (fun e => e_userId e = userId /\ startDate <= e_date e) db.

(** The [_id] of a daily group: year, month and day of the month. *)
Definition day_key (e : IExpense) : Z * Z * Z :=
  (mongo_year (e_date e), mongo_month (e_date e), mongo_dayOfMonth (e_date e)).

(** A daily group after [$group]; [categories] is the [$addToSet] set. *)
Record DayGroup : Type := mkDayGroup {
  dg_id : Z * Z * Z;
  dg_totalAmount : Q;
  dg_count : nat;
  dg_categories : list ExpenseCategory;
}.

Record DailyTrend : Type := mkDailyTrend {
  dt_date : Z;
  dt_totalAmount : Q;
  dt_count : nat;
  dt_categoriesCount : nat;
}.

Definition day_group (kg : Z * Z * Z * list IExpense) : DayGroup :=
  {| dg_id := kg.1;
     dg_totalAmount := sumQ (e_amount <$> kg.2);
     dg_count := length kg.2;
     dg_categories := distinct (e_category <$> kg.2) |}.

Definition group_daily (docs : list IExpense) : list DayGroup :=
  day_group <$> group_by day_key docs.

Definition project_daily (g : DayGroup) : DailyTrend :=
  {| dt_date := mongo_dateFromParts (dg_id g).1.1 (dg_id g).1.2 (dg_id g).2;
     dt_totalAmount := mongo_round2 (dg_totalAmount g);
     dt_count := dg_count g;
     dt_categoriesCount := length (dg_categories g) |}.

Definition dailyTrends (userId : string) (startDate : Z)
    (db : list IExpense) : list DailyTrend :=
  sort_by (fun a b => dt_date a <=? dt_date b)
    (project_daily <$> group_daily (match_since userId startDate db)).

Record TopCategory : Type := mkTopCategory {
  tc_category : ExpenseCategory;
  tc_totalAmount : Q;
  tc_count : nat;
}.

Definition top_group (kg : ExpenseCategory * list IExpense) : TopCategory :=
  {| tc_category := kg.1;
     tc_totalAmount := sumQ (e_amount <$> kg.2);
     tc_count := length kg.2 |}.

Definition group_top (docs : list IExpense) : list TopCategory :=
  top_group <$> group_by e_category docs.

Definition project_top (g : TopCategory) : TopCategory :=
  {| tc_category := tc_category g;
     tc_totalAmount := mongo_round2 (tc_totalAmount g);
     tc_count := tc_count g |}.

(** Group by category, round, sort by total descending, [{ $limit: 5 }]. *)
Definition top_categories (docs : list IExpense) : list TopCategory :=
  take 5 (sort_by (by_totalAmount_desc tc_totalAmount) (project_top <$> group_top docs)).

Definition topCategories_since (userId : string) (startDate : Z)
    (db : list IExpense) : list TopCategory :=
  top_categories (match_since userId startDate db).

Record TrendSummary : Type := mkTrendSummary {
  tr_periodTotal : Q;
  tr_periodCount : nat;
  tr_dailyAverage : Q;
  tr_activeDays : nat;
}.

Record TrendPeriod : Type := mkTrendPeriod {
  tp_days : Z;
  tp_startDate : Z;
  tp_endDate : Z;
}.

Record TrendReportResponse : Type := mkTrendReportResponse {
  tr_period : TrendPeriod;
  tr_summary : TrendSummary;
  tr_dailyTrends : list DailyTrend;
  tr_topCategories : list TopCategory;
}.

Definition periodTotal_of (dts : list DailyTrend) : Q :=
  foldl (fun sum d => (sum + dt_totalAmount d)%Q) 0%Q dts.

Definition periodCount_of (dts : list DailyTrend) : nat :=
  foldl (fun sum d => (sum + dt_count d)%nat) 0%nat dts.

(** The body of getExpenseTrends after both aggregations have returned;
    [endDate] is the clock reading taken while the response is built. *)
Definition trendReport_of (days startDate endDate : Z)
    (dts : list DailyTrend) (tops : list TopCategory) : TrendReportResponse :=
  let periodTotal := periodTotal_of dts in
  let periodCount := periodCount_of dts in
  let dailyAverage :=
    if (0 <? length dts)%nat then (periodTotal / of_nat (length dts))%Q else 0%Q in
  {| tr_period := {| tp_days := days; tp_startDate := startDate; tp_endDate := endDate |};
     tr_summary :=
       {| tr_periodTotal := round2 periodTotal;
          tr_periodCount := periodCount;
          tr_dailyAverage := round2 dailyAverage;
          tr_activeDays := length dts |};
     tr_dailyTrends := dts;
     tr_topCategories := tops |}.

(** The start of the window: [startDate.setDate(startDate.getDate() - days)]
    on [startDate = new Date()]. *)
Definition window_start (tz now days : Z) : Z :=
  setDate tz now (getDate tz now - days).

(** The trend report of a user: [now] is the clock reading at the start of
    the request, [now'] the one taken for the response. *)
Definition trendReport (tz now now' : Z) (userId : string) (days : Z)
    (db : list IExpense) : TrendReportResponse :=
  let startDate := window_start tz now days in
  trendReport_of days startDate now'
    (dailyTrends userId startDate db) (topCategories_since userId startDate db).

(** ** Summary report: the four queries of getExpenseSummary *)

Definition match_user (userId : string) (db : list IExpense) : list IExpense :=
  filter (fun e => e_userId e = userId) db.

(** The single document of a [$group] with [_id: null]; no document at all
    when nothing matched. *)
Record TotalStats : Type := mkTotalStats {
  ts_totalAmount : Q;
  ts_count : nat;
  ts_avgAmount : Q;
  ts_minAmount : Q;
  ts_maxAmount : Q;
}.

Definition total_group (kg : unit * list IExpense) : TotalStats :=
  {| ts_totalAmount := sumQ (e_amount <$> kg.2);
     ts_count := length kg.2;
     ts_avgAmount := avgQ (e_amount <$> kg.2);
     ts_minAmount := minQ (e_amount <$> kg.2);
     ts_maxAmount := maxQ (e_amount <$> kg.2) |}.

Definition totalExpenses (userId : string) (db : list IExpense) : list TotalStats :=
  total_group <$> group_by (fun _ => tt) (match_user userId db).

Record MonthStats : Type := mkMonthStats {
  cm_totalAmount : Q;
  cm_count : nat;
}.

(** Current month: [$gte: monthStart], [$lte: monthEnd]. *)
Definition current_month_group (kg : unit * list IExpense) : MonthStats :=
  {| cm_totalAmount := sumQ (e_amount <$> kg.2);
     cm_count := length kg.2 |}.

Definition currentMonthExpenses (userId : string) (monthStart monthEnd : Z)
    (db : list IExpense) : list MonthStats :=
  current_month_group <$> group_by (fun _ => tt) (match_category userId monthStart monthEnd db).

Definition categoryBreakdown_top (userId : string) (db : list IExpense) : list TopCategory :=
  top_categories (match_user userId db).

(** A recent expense: [.select("title amount date category")] keeps [_id]. *)
Record RecentExpense : Type := mkRecentExpense {
  re_id : string;
  re_title : string;
  re_amount : Q;
  re_date : Z;
  re_category : ExpenseCategory;
}.

Definition select_recent (e : IExpense) : RecentExpense :=
  {| re_id := e_id e; re_title := e_title e; re_amount := e_amount e;
     re_date := e_date e; re_category := e_category e |}.

(** [Expense.find({ userId }).sort({ createdAt: -1 }).limit(5).select(..)] *)
Definition recentExpenses (userId : string) (db : list IExpense) : list RecentExpense :=
  select_recent <$>
    take 5 (sort_by (fun a b => e_createdAt b <=? e_createdAt a) (match_user userId db)).

Record SummaryOverview : Type := mkSummaryOverview {
  so_totalExpenses : Q;
  so_totalCount : nat;
  so_averageExpense : Q;
  so_minExpense : Q;
  so_maxExpense : Q;
}.

Record SummaryCurrentMonth : Type := mkSummaryCurrentMonth {
  sc_totalAmount : Q;
  sc_count : nat;
}.

Record SummaryReportResponse : Type := mkSummaryReportResponse {
  sr_overview : SummaryOverview;
  sr_currentMonth : SummaryCurrentMonth;
  sr_topCategories : list TopCategory;
  sr_recentExpenses : list RecentExpense;
}.

(** The body of getExpenseSummary after the four queries have returned:
    [xs[0] || zeros] is [default zeros (head xs)]. *)
Definition summaryReport_of (totals : list TotalStats) (months : list MonthStats)
    (tops : list TopCategory) (recent : list RecentExpense) : SummaryReportResponse :=
  let totalStats :=
    default {| ts_totalAmount := 0; ts_count := 0; ts_avgAmount := 0;
               ts_minAmount := 0; ts_maxAmount := 0 |} (head totals) in
  let currentMonthStats :=
    default {| cm_totalAmount := 0; cm_count := 0 |} (head months) in
  {| sr_overview :=
       {| so_totalExpenses := round2 (ts_totalAmount totalStats);
          so_totalCount := ts_count totalStats;
          so_averageExpense := round2 (ts_avgAmount totalStats);
          so_minExpense := round2 (ts_minAmount totalStats);
          so_maxExpense := round2 (ts_maxAmount totalStats) |};
     sr_currentMonth :=
       {| sc_totalAmount := round2 (cm_totalAmount currentMonthStats);
          sc_count := cm_count currentMonthStats |};
     sr_topCategories := tops;
     sr_recentExpenses := recent |}.

(** The summary report of a user; [n1] .. [n4] are the four clock readings
    that build the bounds of the current month. *)
Definition summaryReport (tz n1 n2 n3 n4 : Z) (userId : string)
    (db : list IExpense) : SummaryReportResponse :=
  let monthStart := Date_of_parts tz (getFullYear tz n1) (getMonth tz n2) 1 in
  let monthEnd := Date_of_parts tz (getFullYear tz n3) (getMonth tz n4 + 1) 0 in
  summaryReport_of (totalExpenses userId db)
    (currentMonthExpenses userId monthStart monthEnd db)
    (categoryBreakdown_top userId db) (recentExpenses userId db).

(** ** Handlers: requests, responses and the world they run in *)

Record Request : Type := mkRequest {
  req_userId : string;                 (* set by the authenticate middleware *)
  req_query : gmap string string;
}.

Inductive Body : Type :=
  | Errors (errors : list string)
  | CategoryData (data : CategoryReportResponse)
  | MonthlyData (data : MonthlyReportResponse)
  | TrendData (data : TrendReportResponse)
  | SummaryData (data : SummaryReportResponse).

Record Response : Type := mkResponse {
  res_status : Z;
  res_success : bool;
  res_message : string;
  res_body : Body;
}.

(** The store, the time zone of the process, the wall clock (its successive
    readings, and how many were taken) and the calls made to the store. *)
Record World : Type := mkWorld {
  w_db : list IExpense;
  w_tz : Z;
  w_clock : nat -> Z;
  w_ticks : nat;
  w_log : list string;
}.

Definition M (A : Type) : Type := World -> A * World.

Definition ret {A} (a : A) : M A := fun w => (a, w).

Definition bind {A B} (m : M A) (k : A -> M B) : M B :=
  fun w => let '(a, w') := m w in k a w'.

Declare Scope handler_scope.
Delimit Scope handler_scope with handler.
Notation "x <- m ;; k" := (bind m (fun x => k))
  (at level 100, m at next level, right associativity) : handler_scope.

(** [new Date()] reads the clock. *)
Definition new_Date : M Z :=
  fun w => (w_clock w (w_ticks w),
            {| w_db := w_db w; w_tz := w_tz w; w_clock := w_clock w;
               w_ticks := S (w_ticks w); w_log := w_log w |}).

Definition timezone : M Z := fun w => (w_tz w, w).

(** A call to the store: it reads the records and leaves a log entry. *)
Definition store_call {A} (name : string) (query : list IExpense -> A) : M A :=
  fun w => (query (w_db w),
            {| w_db := w_db w; w_tz := w_tz w; w_clock := w_clock w;
               w_ticks := w_ticks w; w_log := w_log w ++ [name] |}).

Definition Expense_aggregate {A} (pipeline : list IExpense -> A) : M A :=
  store_call "Expense.aggregate" pipeline.

Definition Expense_find {A} (query : list IExpense -> A) : M A :=
  store_call "Expense.find" query.

Definition json (status : Z) (success : bool) (message : string) (body : Body)
  : M Response :=
  ret {| res_status := status; res_success := success;
         res_message := message; res_body := body |}.

Local Open Scope handler_scope.

Section Handlers.

(** [Joi.date()] on a query string value: the time value, or [None] when
    the string is not a valid date. *)
Variable Joi_date : string -> option Z.

(** [parseInt]: [None] stands for [NaN]. *)
Variable parseInt : string -> option Z.

Definition dquote : string := String "034"%char "".

(** Keys the schema does not declare. *)
Definition unknown_keys (query : gmap string string) : list string :=
  filter (fun k => k <> "startDate" /\ k <> "endDate") (map_to_list query).*1.

(** [reportQuerySchema.validate(req.query)]: the first error, or the
    converted value.  Both dates are required, [endDate] must not be
    before [startDate], and no other key is allowed. *)
Definition reportQuerySchema_validate (query : gmap string string)
  : list string + Z * Z :=
  match query !! "startDate" with
  | None => inl ["Start date is required"]
  | Some s =>
    match Joi_date s with
    | None => inl ["Start date must be a valid date"]
    | Some startDate =>
      match query !! "endDate" with
      | None => inl ["End date is required"]
      | Some e =>
        match Joi_date e with
        | None => inl ["End date must be a valid date"]
        | Some endDate =>
          if endDate <? startDate then inl ["End date must be after start date"]
          else match unknown_keys query with
               | [] => inr (startDate, endDate)
               | k :: _ => inl [dquote +:+ k +:+ dquote +:+ " is not allowed"]
               end
        end
      end
    end
  end.

(** [parseInt(req.query.k as string) || dflt]: [NaN] and [0] are falsy,
    and [dflt] is evaluated only then. *)
Definition parseInt_or (query : gmap string string) (k : string) (dflt : M Z) : M Z :=
  match query !! k ≫= parseInt with
  | Some n => if n =? 0 then dflt else ret n
  | None => dflt
  end.

Definition getCategoryReport (req : Request) : M Response :=
  match reportQuerySchema_validate (req_query req) with
  | inl errors => json 400 false "Validation error" (Errors errors)
  | inr (startDate, endDate) =>
      let userId := req_userId req in
      cts <- Expense_aggregate (categoryTotals userId startDate endDate);;
      json 200 true "Category report generated successfully"
        (CategoryData (categoryReport_of startDate endDate cts))
  end.

Definition getExpenseTrends (req : Request) : M Response :=
  let userId := req_userId req in
  days <- parseInt_or (req_query req) "days" (ret 30);;
  now <- new_Date;;
  tz <- timezone;;
  let startDate := window_start tz now days in
  dts <- Expense_aggregate (dailyTrends userId startDate);;
  tops <- Expense_aggregate (topCategories_since userId startDate);;
  endDate <- new_Date;;
  json 200 true "Expense trends retrieved successfully"
    (TrendData (trendReport_of days startDate endDate dts tops)).

Definition getExpenseSummary (req : Request) : M Response :=
  let userId := req_userId req in
  tz <- timezone;;
  totals <- Expense_aggregate (totalExpenses userId);;
  n1 <- new_Date;;
  n2 <- new_Date;;
  n3 <- new_Date;;
  n4 <- new_Date;;
  let monthStart := Date_of_parts tz (getFullYear tz n1) (getMonth tz n2) 1 in
  let monthEnd := Date_of_parts tz (getFullYear tz n3) (getMonth tz n4 + 1) 0 in
  months <- Expense_aggregate (currentMonthExpenses userId monthStart monthEnd);;
  tops <- Expense_aggregate (categoryBreakdown_top userId);;
  recent <- Expense_find (recentExpenses userId);;
  json 200 true "Expense summary retrieved successfully"
    (SummaryData (summaryReport_of totals months tops recent)).

Definition getMonthlyReport (req : Request) : M Response :=
  let userId := req_userId req in
  tz <- timezone;;
  year <- parseInt_or (req_query req) "year"
            (now <- new_Date;; ret (getFullYear tz now));;
  mts <- Expense_aggregate (monthlyTotals tz userId year);;
  json 200 true "Monthly report generated successfully"
    (MonthlyData (monthlyReport_of year mts)).

End Handlers.

(** Running a handler: the response, and the calls it made to the store. *)
Definition response_of (h : M Response) (w : World) : Response := (h w).1.

Definition store_calls (h : M Response) (w : World) : list string :=
  drop (length (w_log w)) (w_log (h w).2).

(** The same world with another record set. *)
Definition with_db (db : list IExpense) (w : World) : World :=
  {| w_db := db; w_tz := w_tz w; w_clock := w_clock w;
     w_ticks := w_ticks w; w_log := w_log w |}.

(** ** Example instances of the parsers, and example data *)

Definition digit_of (c : ascii) : option Z :=
  let n := Z.of_nat (nat_of_ascii c) in
  if (48 <=? n) && (n <=? 57) then Some (n - 48) else None.

(** The value of a non-empty string of decimal digits. *)
Fixpoint digits_value (acc : Z) (seen : bool) (s : string) : option Z :=
  match s with
  | EmptyString => if seen then Some acc else None
  | String c s' =>
      match digit_of c with
      | Some d => digits_value (acc * 10 + d) true s'
      | None => None
      end
  end.

(** A [parseInt] for plain decimal numerals with an optional minus sign. *)
Definition parse_decimal (s : string) : option Z :=
  match s with
  | String "-"%char s' => Z.opp <$> digits_value 0 false s'
  | _ => digits_value 0 false s
  end.

(** A date parser for the form YYYY-MM-DD (midnight UTC). *)
Definition parse_iso_date (s : string) : option Z :=
  if bool_decide (String.length s = 10%nat /\ String.get 4 s = Some "-"%char
                  /\ String.get 7 s = Some "-"%char)
  then y ← digits_value 0 false (String.substring 0 4 s);
       m ← digits_value 0 false (String.substring 5 2 s);
       d ← digits_value 0 false (String.substring 8 2 s);
       if (1 <=? m) && (m <=? 12) && (1 <=? d) && (d <=? 31)
       then Some (mongo_dateFromParts y m d) else None
  else None.

Definition expense (id : string) (amount : Q) (date : Z) (category : ExpenseCategory)
    (userId : string) : IExpense :=
  {| e_id := id; e_title := id; e_amount := amount; e_date := date;
     e_category := category; e_notes := None; e_userId := userId;
     e_createdAt := date; e_updatedAt := date |}.

(** A world whose clock reads [now + i] at the i-th reading. *)
Definition world (db : list IExpense) (tz now : Z) : World :=
  {| w_db := db; w_tz := tz; w_clock := fun i => now + Z.of_nat i;
     w_ticks := 0; w_log := [] |}.

Definition query_of (kvs : list (string * string)) : gmap string string :=
  list_to_map kvs.

(** The year a monthly request asks for, given the reading the clock would
    give. *)
Definition requested_year (parseInt : string -> option Z) (req : Request)
    (tz now : Z) : Z :=
  match req_query req !! "year" ≫= parseInt with
  | Some n => if n =? 0 then getFullYear tz now else n
  | None => getFullYear tz now
  end.

(** The window length a trend request asks for. *)
Definition requested_days (parseInt : string -> option Z) (req : Request) : Z :=
  match req_query req !! "days" ≫= parseInt with
  | Some n => if n =? 0 then 30 else n
  | None => 30
  end.







(** ** Further definitions: months, top categories *)

Definition months_1_12 : list Z := [1; 2; 3; 4; 5; 6; 7; 8; 9; 10; 11; 12].


(** ** The expense endpoints ([src/controllers/expenseController.ts]) *)

(** The [pagination] object of a list response ([PaginationInfo]). *)
Record PaginationInfo : Type := mkPaginationInfo {
  pg_currentPage : Z;
  pg_totalPages : Z;
  pg_totalCount : nat;
  pg_limit : Z;
  pg_hasNextPage : bool;
  pg_hasPrevPage : bool;
}.

(** The document of the statistics pipelines ([_id: null]). *)
Record StatsGroup : Type := mkStatsGroup {
  sg_totalAmount : Q;
  sg_totalCount : nat;
  sg_avgAmount : Q;
}.

(** A user document without its password ([.select("-password")]). *)
Record UserDoc : Type := mkUserDoc {
  u_id : string;
  u_name : string;
  u_email : string;
  u_createdAt : Z;
  u_updatedAt : Z;
}.

(** What a response of these endpoints carries besides [success] and
    [message]: nothing, [errors], [error], or [data]. *)
Inductive Payload : Type :=
  | NoPayload
  | ValidationErrors (errors : list string)
  | ErrorText (error : string)
  | ExpenseData (expense : IExpense)
  | ExpensesData (expenses : list IExpense) (pagination : PaginationInfo)
  | StatsData (currentMonth allTime : StatsGroup).

Record Reply : Type := mkReply {
  rp_status : Z;
  rp_success : bool;
  rp_message : string;
  rp_payload : Payload;
}.

(** *** getExpenseStats *)

Definition stats_group (kg : unit * list IExpense) : StatsGroup :=
  {| sg_totalAmount := sumQ (e_amount <$> kg.2);
     sg_totalCount := length kg.2;
     sg_avgAmount := avgQ (e_amount <$> kg.2) |}.

Definition currentMonthStats (userId : string) (startOfMonth endOfMonth : Z)
    (db : list IExpense) : list StatsGroup :=
  stats_group <$> group_by (fun _ => tt) (match_category userId startOfMonth endOfMonth db).

Definition totalStats (userId : string) (db : list IExpense) : list StatsGroup :=
  stats_group <$> group_by (fun _ => tt) (match_user userId db).

Definition zero_stats : StatsGroup :=
  {| sg_totalAmount := 0; sg_totalCount := 0; sg_avgAmount := 0 |}.

(** The statistics of a user at clock reading [currentDate]. *)
Definition expenseStats (tz currentDate : Z) (userId : string) (db : list IExpense)
  : StatsGroup * StatsGroup :=
  let startOfMonth :=
    Date_of_parts tz (getFullYear tz currentDate) (getMonth tz currentDate) 1 in
  let endOfMonth :=
    Date_of_parts tz (getFullYear tz currentDate) (getMonth tz currentDate + 1) 0 in
  (default zero_stats (head (currentMonthStats userId startOfMonth endOfMonth db)),
   default zero_stats (head (totalStats userId db))).

Definition getExpenseStats (req : Request) : M Reply :=
  let userId := req_userId req in
  currentDate <- new_Date;;
  tz <- timezone;;
  let startOfMonth :=
    Date_of_parts tz (getFullYear tz currentDate) (getMonth tz currentDate) 1 in
  let endOfMonth :=
    Date_of_parts tz (getFullYear tz currentDate) (getMonth tz currentDate + 1) 0 in
  cms <- Expense_aggregate (currentMonthStats userId startOfMonth endOfMonth);;
  tots <- Expense_aggregate (totalStats userId);;
  ret {| rp_status := 200; rp_success := true;
         rp_message := "Expense statistics retrieved successfully";
         rp_payload := StatsData (default zero_stats (head cms))
                                 (default zero_stats (head tots)) |}.

(** *** getExpenses *)

(** The value of a validated list query. *)
Record ExpenseQuery : Type := mkExpenseQuery {
  q_page : Z;
  q_limit : Z;
  q_category : option ExpenseCategory;
  q_startDate : option Z;
  q_endDate : option Z;
}.

(** The member of the enumeration with a given display value. *)
Definition category_of_name (s : string) : option ExpenseCategory :=
  array_find (fun c => category_name c = s) all_categories.

(** [`Category must be one of: ${Object.values(ExpenseCategory).join(", ")}`] *)
Definition category_message : string :=
  "Category must be one of: " +:+ String.concat ", " (category_name <$> all_categories).

(** [Number.isInteger], as Joi's [integer()] tests it. *)
Definition is_integer (q : Q) : bool := Qeq_bool q (inject_Z (Qfloor q)).

(** [{ userId, category?, date: { $gte?, $lte? } }]: the filter that
    getExpenses builds from a validated query. *)
Definition expense_matches (userId : string) (v : ExpenseQuery) (e : IExpense) : bool :=
  bool_decide (e_userId e = userId)
  && match q_category v with Some c => bool_decide (e_category e = c) | None => true end
  && match q_startDate v with Some s => s <=? e_date e | None => true end
  && match q_endDate v with Some t => e_date e <=? t | None => true end.

(** [.sort({ date: -1, createdAt: -1 })] *)
Definition by_date_createdAt_desc (a b : IExpense) : bool :=
  (e_date b <? e_date a) || ((e_date a =? e_date b) && (e_createdAt b <=? e_createdAt a)).

(** All expenses that match, in the order of the list endpoint. *)
Definition matching_expenses (userId : string) (v : ExpenseQuery) (db : list IExpense)
  : list IExpense :=
  sort_by by_date_createdAt_desc (filter (fun e => expense_matches userId v e = true) db).

(** [.skip((page - 1) * limit).limit(limit)] *)
Definition expenses_page (userId : string) (v : ExpenseQuery) (db : list IExpense)
  : list IExpense :=
  take (Z.to_nat (q_limit v))
       (drop (Z.to_nat ((q_page v - 1) * q_limit v)) (matching_expenses userId v db)).

Definition countDocuments (userId : string) (v : ExpenseQuery) (db : list IExpense) : nat :=
  length (filter (fun e => expense_matches userId v e = true) db).

(** The pagination info of a page. *)
Definition pagination_of (v : ExpenseQuery) (totalCount : nat) : PaginationInfo :=
  let totalPages := Qceiling (of_nat totalCount / inject_Z (q_limit v)) in
  {| pg_currentPage := q_page v;
     pg_totalPages := totalPages;
     pg_totalCount := totalCount;
     pg_limit := q_limit v;
     pg_hasNextPage := q_page v <? totalPages;
     pg_hasPrevPage := 1 <? q_page v |}.

(** A removal of the first element that satisfies [P]. *)
Fixpoint remove_first {A} (P : A -> Prop) `{forall x, Decision (P x)} (l : list A) : list A :=
  match l with
  | [] => []
  | x :: l' => if decide (P x) then l' else x :: remove_first P l'
  end.

(** [Expense.findOneAndDelete(filter)]: removes the first match, and
    returns it. *)
Definition Expense_findOneAndDelete (P : IExpense -> Prop) `{forall x, Decision (P x)}
  : M (option IExpense) :=
  fun w => (array_find P (w_db w),
            {| w_db := remove_first P (w_db w); w_tz := w_tz w; w_clock := w_clock w;
               w_ticks := w_ticks w; w_log := w_log w ++ ["Expense.findOneAndDelete"] |}).

Definition Expense_findOne (P : IExpense -> Prop) `{forall x, Decision (P x)}
  : M (option IExpense) :=
  store_call "Expense.findOne" (array_find P).

(** A request with a route parameter [:id]. *)
Record IdRequest : Type := mkIdRequest {
  ir_userId : string;
  ir_id : string;
}.

Section ExpenseHandlers.

(** [Joi.number()] on a query string value: [None] when it is not a number
    (number.base; other conversion failures are outside the model). *)
Variable Joi_number : string -> option Q.

Variable Joi_date : string -> option Z.

(** [Types.ObjectId.isValid] and the id a valid string denotes
    ([new Types.ObjectId(id)], in the form ids are stored). *)
Variable ObjectId_isValid : string -> bool.
Variable ObjectId_of : string -> string.

(** [{ _id: new Types.ObjectId(id), userId: new Types.ObjectId(userId) }]:
    the filter of getExpenseById and deleteExpense. *)
Definition owned (req : IdRequest) (e : IExpense) : Prop :=
  e_id e = ObjectId_of (ir_id req) /\ e_userId e = ir_userId req.

#[global] Instance owned_dec (req : IdRequest) (e : IExpense) : Decision (owned req e) :=
  and_dec (decide (e_id e = ObjectId_of (ir_id req))) (decide (e_userId e = ir_userId req)).

Definition validate_page (raw : option string) : string + Z :=
  match raw with
  | None => inr 1
  | Some s =>
    match Joi_number s with
    | None => inl "Page must be a number"
    | Some q =>
      if negb (is_integer q) then inl "Page must be an integer"
      else if Qfloor q <? 1 then inl "Page must be at least 1"
      else inr (Qfloor q)
    end
  end.

Definition validate_limit (raw : option string) : string + Z :=
  match raw with
  | None => inr 10
  | Some s =>
    match Joi_number s with
    | None => inl "Limit must be a number"
    | Some q =>
      if negb (is_integer q) then inl "Limit must be an integer"
      else if Qfloor q <? 1 then inl "Limit must be at least 1"
      else if 100 <? Qfloor q then inl "Limit cannot exceed 100"
      else inr (Qfloor q)
    end
  end.

Definition validate_category (raw : option string) : string + option ExpenseCategory :=
  match raw with
  | None => inr None
  | Some s =>
    match category_of_name s with
    | None => inl category_message
    | Some c => inr (Some c)
    end
  end.

Definition validate_startDate (raw : option string) : string + option Z :=
  match raw with
  | None => inr None
  | Some s =>
    match Joi_date s with
    | None => inl "Start date must be a valid date"
    | Some t => inr (Some t)
    end
  end.

(** [endDate]: when [startDate] exists it must not be before it. *)
Definition validate_endDate (startDate : option Z) (raw : option string)
  : string + option Z :=
  match raw with
  | None => inr None
  | Some s =>
    match Joi_date s with
    | None => inl "End date must be a valid date"
    | Some t =>
      match startDate with
      | Some t0 => if t <? t0 then inl "End date must be after start date" else inr (Some t)
      | None => inr (Some t)
      end
    end
  end.

Definition expense_query_keys : list string :=
  ["page"; "limit"; "category"; "startDate"; "endDate"].

(** [expenseQuerySchema.validate(req.query)]: the first error, or the
    converted value with its defaults. *)
Definition expenseQuerySchema_validate (query : gmap string string)
  : list string + ExpenseQuery :=
  match validate_page (query !! "page") with
  | inl m => inl [m]
  | inr page =>
    match validate_limit (query !! "limit") with
    | inl m => inl [m]
    | inr limit =>
      match validate_category (query !! "category") with
      | inl m => inl [m]
      | inr category =>
        match validate_startDate (query !! "startDate") with
        | inl m => inl [m]
        | inr startDate =>
          match validate_endDate startDate (query !! "endDate") with
          | inl m => inl [m]
          | inr endDate =>
            match filter (fun k => k ∉ expense_query_keys) (map_to_list query).*1 with
            | [] => inr {| q_page := page; q_limit := limit; q_category := category;
                           q_startDate := startDate; q_endDate := endDate |}
            | k :: _ => inl [dquote +:+ k +:+ dquote +:+ " is not allowed"]
            end
          end
        end
      end
    end
  end.

Definition getExpenses (req : Request) : M Reply :=
  match expenseQuerySchema_validate (req_query req) with
  | inl errors =>
      ret {| rp_status := 400; rp_success := false; rp_message := "Validation error";
             rp_payload := ValidationErrors errors |}
  | inr v =>
      let userId := req_userId req in
      expenses <- Expense_find (expenses_page userId v);;
      totalCount <- store_call "Expense.countDocuments" (countDocuments userId v);;
      ret {| rp_status := 200; rp_success := true;
             rp_message := "Expenses retrieved successfully";
             rp_payload := ExpensesData expenses (pagination_of v totalCount) |}
  end.

(** *** getExpenseById and deleteExpense *)

Definition getExpenseById (req : IdRequest) : M Reply :=
  if negb (ObjectId_isValid (ir_id req))
  then ret {| rp_status := 400; rp_success := false; rp_message := "Invalid expense ID";
              rp_payload := NoPayload |}
  else
    found <- Expense_findOne (owned req);;
    match found with
    | None => ret {| rp_status := 404; rp_success := false;
                     rp_message := "Expense not found"; rp_payload := NoPayload |}
    | Some expense =>
        ret {| rp_status := 200; rp_success := true;
               rp_message := "Expense retrieved successfully";
               rp_payload := ExpenseData expense |}
    end.

Definition deleteExpense (req : IdRequest) : M Reply :=
  if negb (ObjectId_isValid (ir_id req))
  then ret {| rp_status := 400; rp_success := false; rp_message := "Invalid expense ID";
              rp_payload := NoPayload |}
  else
    found <- Expense_findOneAndDelete (owned req);;
    match found with
    | None => ret {| rp_status := 404; rp_success := false;
                     rp_message := "Expense not found"; rp_payload := NoPayload |}
    | Some expense =>
        ret {| rp_status := 200; rp_success := true;
               rp_message := "Expense deleted successfully";
               rp_payload := ExpenseData expense |}
    end.

End ExpenseHandlers.

(** ** The authenticate middleware ([src/middleware/auth.ts]) *)

(** The payload of a token ([JWTPayload]). *)
Record JWTPayload : Type := mkJWTPayload {
  jwt_userId : string;
  jwt_email : string;
}.

Section Authenticate.

(** [jwt.verify(token, JWT_SECRET)]: [None] when it throws. *)
Variable jwt_verify : string -> option JWTPayload.

(** [User.findById(id).select("-password")] on the users collection: the
    message of the error when the query throws, else the user if any. *)
Variable User_findById : string -> string + option UserDoc.

(** [verifyToken]: throws [Error("Invalid or expired token")] when
    [jwt.verify] throws. *)
Definition verifyToken (token : string) : string + JWTPayload :=
  match jwt_verify token with
  | Some payload => inr payload
  | None => inl "Invalid or expired token"
  end.

Definition unauthorized (message : string) (payload : Payload) : Reply :=
  {| rp_status := 401; rp_success := false; rp_message := message; rp_payload := payload |}.

(** [authenticate]: [authHeader] is [req.header("Authorization")].  It
    either responds, or calls [next()] with [req.user] and [req.userId]
    set. *)
Definition authenticate (authHeader : option string) : Reply + UserDoc * string :=
  match authHeader with
  | None => inl (unauthorized "Access denied. No token provided or invalid format." NoPayload)
  | Some h =>
    if negb (String.prefix "Bearer " h)
    then inl (unauthorized "Access denied. No token provided or invalid format." NoPayload)
    else
      let token := String.substring 7 (String.length h - 7) h in
      if bool_decide (token = "")
      then inl (unauthorized "Access denied. No token provided." NoPayload)
      else
        match verifyToken token with
        | inl msg => inl (unauthorized "Invalid token." (ErrorText msg))
        | inr decoded =>
          match User_findById (jwt_userId decoded) with
          | inl msg => inl (unauthorized "Invalid token." (ErrorText msg))
          | inr None =>
              inl (unauthorized "Token is valid but user no longer exists." NoPayload)
          | inr (Some user) => inr (user, jwt_userId decoded)
          end
        end
  end.

End Authenticate.

(** ** The routers ([src/routes/reports.ts], [src/routes/expenses.ts]) *)

Section Routers.

Variable jwt_verify : string -> option JWTPayload.
Variable User_findById : string -> string + option UserDoc.

(** Express's route matching: whether the method and the path of the
    request match [router.METHOD(pattern)]. *)
Variable matches : string -> string -> bool.

(** [req.params.id], when a route with [:id] matches. *)
Variable params_id : string.

Variable Joi_number : string -> option Q.
Variable Joi_date : string -> option Z.
Variable parseInt : string -> option Z.
Variable ObjectId_isValid : string -> bool.
Variable ObjectId_of : string -> string.

(** The two handlers of the expense router that are not modelled, for the
    authenticated userId. *)
Variable createExpense : string -> M Reply.
Variable updateExpense : string -> M Reply.

(** The report router: [router.use(authenticate)] runs for every request,
    then the first route that matches answers.  [None]: [next()] is called
    and no route of this router matches. *)
Definition reports_router (authHeader : option string) (query : gmap string string)
  : M (option (Reply + Response)) :=
  match authenticate jwt_verify User_findById authHeader with
  | inl r => ret (Some (inl r))
  | inr (user, userId) =>
      let req := {| req_userId := userId; req_query := query |} in
      if matches "GET" "/category"
      then res <- getCategoryReport Joi_date req;; ret (Some (inr res))
      else if matches "GET" "/monthly"
      then res <- getMonthlyReport parseInt req;; ret (Some (inr res))
      else if matches "GET" "/trends"
      then res <- getExpenseTrends parseInt req;; ret (Some (inr res))
      else if matches "GET" "/summary"
      then res <- getExpenseSummary req;; ret (Some (inr res))
      else ret None
  end.

(** The expense router, with its routes in the order of the file. *)
Definition expenses_router (authHeader : option string) (query : gmap string string)
  : M (option Reply) :=
  match authenticate jwt_verify User_findById authHeader with
  | inl r => ret (Some r)
  | inr (user, userId) =>
      let req := {| req_userId := userId; req_query := query |} in
      let idreq := {| ir_userId := userId; ir_id := params_id |} in
      if matches "GET" "/stats"
      then r <- getExpenseStats req;; ret (Some r)
      else if matches "GET" "/"
      then r <- getExpenses Joi_number Joi_date req;; ret (Some r)
      else if matches "POST" "/"
      then r <- createExpense userId;; ret (Some r)
      else if matches "GET" "/:id"
      then r <- getExpenseById ObjectId_isValid ObjectId_of idreq;; ret (Some r)
      else if matches "PUT" "/:id"
      then r <- updateExpense userId;; ret (Some r)
      else if matches "DELETE" "/:id"
      then r <- deleteExpense ObjectId_isValid ObjectId_of idreq;; ret (Some r)
      else ret None
  end.

End Routers.

(** ** The error handler ([src/middleware/errorHandler.ts]) *)

(** The mongoose error class an error is an instance of, if any. *)
Inductive ErrorClass : Type :=
  | CastError_class
  | ValidationError_class
  | Other_class.

#[global] Instance ErrorClass_eq_dec : EqDecision ErrorClass.
Proof. solve_decision. Defined.

(** What errorHandler reads of an error: [keyValue] by its keys, [errors]
    by the messages of its values, [statusCode] and [code] when present. *)
Record CustomError : Type := mkCustomError {
  err_name : string;
  err_message : string;
  err_class : ErrorClass;
  err_statusCode : option Z;
  err_code : option Z;
  err_keyValue : option (list string);
  err_errors : list string;
  err_stack : option string;
}.

Record ErrorReply : Type := mkErrorReply {
  er_status : Z;
  er_success : bool;
  er_message : string;
  er_stack : option string;
}.

(** [errorHandler]: [development] is
    [process.env.NODE_ENV === "development"].  Each recognised kind of error
    overwrites the message and the status code of the ones before it. *)
Definition errorHandler (development : bool) (err : CustomError) : ErrorReply :=
  let error : string * option Z := (err_message err, err_statusCode err) in
  let error :=
    if bool_decide (err_name err = "CastError" /\ err_class err = CastError_class)
    then ("Resource not found", Some 404) else error in
  let error :=
    if bool_decide (err_code err = Some 11000)
    then (default "undefined" (head (default [] (err_keyValue err))) +:+ " already exists",
          Some 400)
    else error in
  let error :=
    if bool_decide (err_name err = "ValidationError" /\ err_class err = ValidationError_class)
    then (String.concat ", " (err_errors err), Some 400) else error in
  let error :=
    if bool_decide (err_name err = "JsonWebTokenError")
    then ("Invalid token", Some 401) else error in
  let error :=
    if bool_decide (err_name err = "TokenExpiredError")
    then ("Token expired", Some 401) else error in
  {| er_status := match error.2 with
                  | Some c => if c =? 0 then 500 else c
                  | None => 500
                  end;
     er_success := false;
     er_message := if bool_decide (error.1 = "") then "Server Error" else error.1;
     er_stack := if development then err_stack err else None |}.

(** The same query for another page. *)
Definition with_page (v : ExpenseQuery) (page : Z) : ExpenseQuery :=
  {| q_page := page; q_limit := q_limit v; q_category := q_category v;
     q_startDate := q_startDate v; q_endDate := q_endDate v |}.


(** ** An example instance of the id parameter *)

(** Strings of 24 characters as the valid ids. *)
Definition hex24 (s : string) : bool := (String.length s =? 24)%nat.

(** * Properties *)

(** ** The aggregation stages *)

Section Stages.
Context {A K : Type} `{EqDecision K}.
Implicit Types (l : list K) (docs : list A) (key : A -> K).

Lemma distinct_elem_of l k : k ∈ distinct l <-> k ∈ l.
Proof.
  induction l as [|k' l IH]; simpl; [done|].
  rewrite !elem_of_cons, list_elem_of_filter, IH.
  destruct (decide (k = k')); intuition.
Qed.

Lemma distinct_NoDup l : NoDup (distinct l).
Proof.
  induction l as [|k l IH]; simpl; constructor.
  - rewrite list_elem_of_filter. intros [Hne _]. by apply Hne.
  - by apply NoDup_filter.
Qed.

Lemma distinct_nil l : distinct l = [] -> l = [].
Proof. by destruct l. Qed.

Lemma group_by_keys key docs : (group_by key docs).*1 = distinct (key <$> docs).
Proof.
  unfold group_by. rewrite <- list_fmap_compose.
  induction (distinct (key <$> docs)) as [|k l IH]; csimpl; [done|by rewrite IH].
Qed.

Lemma group_by_length key docs :
  length (group_by key docs) = length (distinct (key <$> docs)).
Proof. unfold group_by. by rewrite length_fmap. Qed.

Lemma elem_of_group_by key docs k g :
  (k, g) ∈ group_by key docs <->
  k ∈ key <$> docs /\ g = filter (fun d => key d = k) docs.
Proof.
  unfold group_by. rewrite list_elem_of_fmap. setoid_rewrite distinct_elem_of.
  split; [intros (k' & [= -> ->] & ?); done | intros [? ->]; eauto].
Qed.


Lemma group_by_nil key docs : group_by key docs = [] -> docs = [].
Proof.
  unfold group_by. intros H%fmap_nil_inv%distinct_nil. by apply fmap_nil_inv in H.
Qed.
End Stages.

Section Sorting.
Context {A : Type} (le : A -> A -> bool).

Lemma insert_sorted_perm x (l : list A) : insert_sorted le x l ≡ₚ x :: l.
Proof.
  induction l as [|y l IH]; simpl; [done|].
  destruct (le x y); [done|]. rewrite IH. apply Permutation_swap.
Qed.

Lemma sort_by_perm (l : list A) : sort_by le l ≡ₚ l.
Proof.
  induction l as [|x l IH]; simpl; [done|].
  unfold sort_by in *. simpl. by rewrite insert_sorted_perm, IH.
Qed.

Lemma sort_by_length (l : list A) : length (sort_by le l) = length l.
Proof. by rewrite sort_by_perm. Qed.

Lemma sort_by_elem_of x (l : list A) : x ∈ sort_by le l <-> x ∈ l.
Proof. by rewrite sort_by_perm. Qed.

Lemma sort_by_Forall (P : A -> Prop) (l : list A) : Forall P (sort_by le l) <-> Forall P l.
Proof. by rewrite sort_by_perm. Qed.
End Sorting.

(** The documents that leave a pipeline of the shape [$group], [$project],
    [$sort]: one per key that occurs, computed from the documents of that
    key. *)
Lemma elem_of_sorted_groups {A K B C} `{EqDecision K} (le : C -> C -> bool)
    (project : B -> C) (group : K * list A -> B) (key : A -> K) (docs : list A) (x : C) :
  x ∈ sort_by le (project <$> (group <$> group_by key docs)) <->
  exists k, k ∈ key <$> docs
    /\ x = project (group (k, filter (fun d => key d = k) docs)).
Proof.
  rewrite sort_by_elem_of, list_elem_of_fmap. split.
  - intros (g & -> & Hg). apply list_elem_of_fmap in Hg as ([k ds] & -> & Hin).
    apply elem_of_group_by in Hin as [Hk ->]. exists k. split; [done|reflexivity].
  - intros (k & Hk & ->). eexists; split; [done|].
    apply list_elem_of_fmap. eexists; split; [done|]. by apply elem_of_group_by.
Qed.

(** ** Isolation: a report only reads the records of its user *)

Lemma match_user_idem userId db : match_user userId (match_user userId db) = match_user userId db.
Proof. unfold match_user. rewrite list_filter_filter. apply list_filter_iff; intros e; tauto. Qed.

Lemma match_category_own userId startDate endDate db :
  match_category userId startDate endDate (match_user userId db)
  = match_category userId startDate endDate db.
Proof.
  unfold match_category, match_user. rewrite list_filter_filter.
  apply list_filter_iff; intros e; tauto.
Qed.

Lemma match_monthly_own tz userId year db :
  match_monthly tz userId year (match_user userId db) = match_monthly tz userId year db.
Proof.
  unfold match_monthly, match_user. rewrite list_filter_filter.
  apply list_filter_iff; intros e; tauto.
Qed.

Lemma match_since_own userId startDate db :
  match_since userId startDate (match_user userId db) = match_since userId startDate db.
Proof.
  unfold match_since, match_user. rewrite list_filter_filter.
  apply list_filter_iff; intros e; tauto.
Qed.

Lemma categoryReport_own userId startDate endDate db :
  categoryReport userId startDate endDate (match_user userId db)
  = categoryReport userId startDate endDate db.
Proof. unfold categoryReport, categoryTotals. by rewrite match_category_own. Qed.

Lemma monthlyReport_own tz userId year db :
  monthlyReport tz userId year (match_user userId db) = monthlyReport tz userId year db.
Proof. unfold monthlyReport, monthlyTotals. by rewrite match_monthly_own. Qed.

Lemma trendReport_own tz now now' userId days db :
  trendReport tz now now' userId days (match_user userId db)
  = trendReport tz now now' userId days db.
Proof.
  unfold trendReport, dailyTrends, topCategories_since. by rewrite match_since_own.
Qed.

Lemma summaryReport_own tz n1 n2 n3 n4 userId db :
  summaryReport tz n1 n2 n3 n4 userId (match_user userId db)
  = summaryReport tz n1 n2 n3 n4 userId db.
Proof.
  unfold summaryReport, totalExpenses, currentMonthExpenses, categoryBreakdown_top,
    recentExpenses.
  by rewrite match_category_own, match_user_idem.
Qed.

(** What each handler answers, in terms of the report functions. *)

Lemma getCategoryReport_response Joi_date req w :
  response_of (getCategoryReport Joi_date req) w =
  match reportQuerySchema_validate Joi_date (req_query req) with
  | inl errors =>
      {| res_status := 400; res_success := false;
         res_message := "Validation error"; res_body := Errors errors |}
  | inr (startDate, endDate) =>
      {| res_status := 200; res_success := true;
         res_message := "Category report generated successfully";
         res_body := CategoryData
                       (categoryReport (req_userId req) startDate endDate (w_db w)) |}
  end.
Proof.
  unfold response_of, getCategoryReport.
  destruct (reportQuerySchema_validate _ _) as [errs|[s e]]; reflexivity.
Qed.

Lemma getMonthlyReport_response parseInt req w :
  response_of (getMonthlyReport parseInt req) w =
  {| res_status := 200; res_success := true;
     res_message := "Monthly report generated successfully";
     res_body := MonthlyData
       (monthlyReport (w_tz w) (req_userId req)
          (requested_year parseInt req (w_tz w) (w_clock w (w_ticks w))) (w_db w)) |}.
Proof.
  unfold response_of, getMonthlyReport, requested_year, parseInt_or, monthlyReport.
  unfold bind, timezone. simpl.
  destruct (req_query req !! "year" ≫= parseInt) as [n|]; [destruct (n =? 0)|]; reflexivity.
Qed.

Lemma getExpenseTrends_response parseInt req w :
  response_of (getExpenseTrends parseInt req) w =
  {| res_status := 200; res_success := true;
     res_message := "Expense trends retrieved successfully";
     res_body := TrendData
       (trendReport (w_tz w) (w_clock w (w_ticks w)) (w_clock w (S (w_ticks w)))
          (req_userId req) (requested_days parseInt req) (w_db w)) |}.
Proof.
  unfold response_of, getExpenseTrends, requested_days, parseInt_or, trendReport.
  unfold bind. simpl.
  destruct (req_query req !! "days" ≫= parseInt) as [n|]; [destruct (n =? 0)|]; reflexivity.
Qed.

Lemma getExpenseSummary_response req w :
  response_of (getExpenseSummary req) w =
  {| res_status := 200; res_success := true;
     res_message := "Expense summary retrieved successfully";
     res_body := SummaryData
       (summaryReport (w_tz w) (w_clock w (w_ticks w)) (w_clock w (S (w_ticks w)))
          (w_clock w (S (S (w_ticks w)))) (w_clock w (S (S (S (w_ticks w)))))
          (req_userId req) (w_db w)) |}.
Proof. reflexivity. Qed.

(** C1. For every user A and every record set, each of the four reports
    invoked for A over the full record set equals A's report over A's own
    records only: no record of another user is included in it or influences
    it. *)
Theorem report_isolation (Joi_date parseInt : string -> option Z) (req : Request) (w : World) :
  let own := match_user (req_userId req) (w_db w) in
  response_of (getCategoryReport Joi_date req) (with_db own w)
    = response_of (getCategoryReport Joi_date req) w
  /\ response_of (getMonthlyReport parseInt req) (with_db own w)
    = response_of (getMonthlyReport parseInt req) w
  /\ response_of (getExpenseTrends parseInt req) (with_db own w)
    = response_of (getExpenseTrends parseInt req) w
  /\ response_of (getExpenseSummary req) (with_db own w)
    = response_of (getExpenseSummary req) w.
Proof.
  simpl. repeat split.
  - rewrite !getCategoryReport_response. simpl.
    destruct (reportQuerySchema_validate _ _) as [errs|[s e]]; [done|].
    by rewrite categoryReport_own.
  - rewrite !getMonthlyReport_response. simpl. by rewrite monthlyReport_own.
  - rewrite !getExpenseTrends_response. simpl. by rewrite trendReport_own.
  - rewrite !getExpenseSummary_response. simpl. by rewrite summaryReport_own.
Qed.

(** ** Category report: what a breakdown entry holds *)

Lemma elem_of_categoryTotals userId startDate endDate db ct :
  ct ∈ categoryTotals userId startDate endDate db <->
  exists k, k ∈ e_category <$> match_category userId startDate endDate db
    /\ ct = project_category
              (category_group
                 (k, filter (fun d => e_category d = k)
                       (match_category userId startDate endDate db))).
Proof. apply elem_of_sorted_groups. Qed.

Lemma elem_of_categoryBreakdown userId startDate endDate db c :
  c ∈ cr_categoryBreakdown (categoryReport userId startDate endDate db) <->
  exists ct, ct ∈ categoryTotals userId startDate endDate db
    /\ c = with_percentage (grandTotal_of (categoryTotals userId startDate endDate db)) ct.
Proof.
  unfold categoryReport, categoryReport_of. simpl. rewrite list_elem_of_fmap.
  split; intros (ct & ? & ?); eauto.
Qed.


(** ** Monthly report: the twelve months *)

Lemma elem_of_monthlyTotals tz userId year db m :
  m ∈ monthlyTotals tz userId year db <->
  exists k, k ∈ month_key <$> match_monthly tz userId year db
    /\ m = project_monthly
             (month_group (k, filter (fun d => month_key d = k)
                                (match_monthly tz userId year db))).
Proof. apply elem_of_sorted_groups. Qed.

Lemma array_find_None {A} (P : A -> Prop) `{forall x, Decision (P x)} (l : list A) :
  array_find P l = None <-> Forall (fun x => ~ P x) l.
Proof. unfold array_find. by rewrite fmap_None, list_find_None. Qed.

(** A month without matched records has no aggregated document. *)
Lemma monthlyTotals_no_month tz userId year db k :
  filter (fun e => month_key e = k) (match_monthly tz userId year db) = [] ->
  array_find (fun m => mt_month m = k) (monthlyTotals tz userId year db) = None.
Proof.
  intros Hnone. apply array_find_None, Forall_forall.
  intros m (k' & Hk' & ->)%elem_of_monthlyTotals Heq. simpl in Heq. subst k'.
  apply list_elem_of_fmap in Hk' as (e & Hk & He).
  assert (e ∈ filter (fun e' => month_key e' = k) (match_monthly tz userId year db)) as Hin
    by (by apply list_elem_of_filter).
  rewrite Hnone in Hin. by apply not_elem_of_nil in Hin.
Qed.

(** C3. For every user, year and record set the monthly breakdown has
    exactly 12 entries, for the months 1 to 12 in ascending order, each with
    its English month name; a month with no matching record reports
    totalAmount = 0, count = 0 and avgAmount = 0. *)
Theorem monthly_breakdown_twelve (tz : Z) (userId : string) (year : Z) (db : list IExpense) :
  let r := monthlyReport tz userId year db in
  let matched := match_monthly tz userId year db in
  length (mr_monthlyBreakdown r) = 12%nat
  /\ mri_month <$> mr_monthlyBreakdown r = [1; 2; 3; 4; 5; 6; 7; 8; 9; 10; 11; 12]
  /\ mri_monthName <$> mr_monthlyBreakdown r
     = ["January"; "February"; "March"; "April"; "May"; "June"; "July";
        "August"; "September"; "October"; "November"; "December"]
  /\ Forall (fun it =>
               filter (fun e => mongo_month (e_date e) = mri_month it) matched = [] ->
               mri_totalAmount it = 0%Q /\ mri_count it = 0%nat /\ mri_avgAmount it = 0%Q)
            (mr_monthlyBreakdown r).
Proof.
  simpl. repeat split.
  apply Forall_forall. intros it Hit.
  unfold completeMonthlyData in Hit.
  apply elem_of_lookup_imap in Hit as (i & name & -> & _). simpl. intros Hnone.
  by rewrite (monthlyTotals_no_month _ _ _ _ _ Hnone).
Qed.

Lemma monthly_breakdown_twelve_witness :
  let r := monthlyReport 0 "u" 1999 [expense "a" 200 1735646400000 SHOPPING "u"] in
  length (mr_monthlyBreakdown r) = 12%nat
  /\ Forall (fun it => mri_totalAmount it = 0%Q /\ mri_count it = 0%nat
                       /\ mri_avgAmount it = 0%Q) (mr_monthlyBreakdown r).
Proof.
  pose proof (monthly_breakdown_twelve 0 "u" 1999
                [expense "a" 200 1735646400000 SHOPPING "u"]) as (Hlen & _ & _ & Hzero).
  split; [exact Hlen|].
  eapply Forall_impl; [exact Hzero|]. intros it Hit. apply Hit.
  vm_compute. reflexivity.
Defined.

(** ** Rounding *)

Lemma Qfloor_unique (x : Q) (z : Z) :
  (inject_Z z <= x)%Q -> (x < inject_Z (z + 1))%Q -> Qfloor x = z.
Proof.
  intros Hle Hlt.
  pose proof (Qfloor_le x) as Hf1. pose proof (Qlt_floor x) as Hf2.
  assert (z < Qfloor x + 1) by (rewrite Zlt_Qlt; lra).
  assert (Qfloor x < z + 1) by (rewrite Zlt_Qlt; lra).
  lia.
Qed.

Lemma Math_round_bounds (x : Q) :
  (x - (1 # 2) < inject_Z (Math_round x) /\ inject_Z (Math_round x) <= x + (1 # 2))%Q.
Proof.
  unfold Math_round.
  pose proof (Qfloor_le (x + (1 # 2))) as Hf1. pose proof (Qlt_floor (x + (1 # 2))) as Hf2.
  rewrite inject_Z_plus in Hf2. change (inject_Z 1) with 1%Q in Hf2. lra.
Qed.

Lemma Math_round_inject_Z (z : Z) : Math_round (inject_Z z) = z.
Proof.
  unfold Math_round. apply Qfloor_unique; [lra|].
  rewrite inject_Z_plus. change (inject_Z 1) with 1%Q. lra.
Qed.

#[global] Instance Math_round_proper : Proper (Qeq ==> eq) Math_round.
Proof. intros x y Hxy. unfold Math_round. by rewrite Hxy. Qed.



Lemma two_places_mongo_round2 (x : Q) : two_places (mongo_round2 x).
Proof. by eexists. Qed.

Lemma two_places_0 : two_places 0.
Proof. exists 0. reflexivity. Qed.

Lemma two_places_plus (x y : Q) : two_places x -> two_places y -> two_places (x + y).
Proof.
  intros [a Ha] [b Hb]. exists (a + b). rewrite Ha, Hb, inject_Z_plus. field.
Qed.

#[global] Instance two_places_proper : Proper (Qeq ==> iff) two_places.
Proof. intros x y Hxy. unfold two_places. by setoid_rewrite Hxy. Qed.

(** Rounding a figure that already has two decimal places changes nothing. *)
Lemma round2_two_places (x : Q) : two_places x -> (round2 x == x)%Q.
Proof.
  intros [k Hk]. unfold round2.
  assert (x * 100 == inject_Z k)%Q as -> by (rewrite Hk; field).
  by rewrite Math_round_inject_Z, Hk.
Qed.


(** ** Calendar *)

Lemma all_in_block_spec (k : nat) (f : Z -> bool) (lo : Z) :
  all_in_block k f lo = true -> forall x, lo <= x < lo + 2 ^ Z.of_nat k -> f x = true.
Proof.
  revert lo. induction k as [|k IH]; intros lo H x Hx; simpl in H.
  - change (2 ^ Z.of_nat 0) with 1 in Hx. by replace x with lo by lia.
  - apply andb_true_iff in H as [H1 H2].
    replace (Z.of_nat (S k)) with (Z.succ (Z.of_nat k)) in Hx by lia.
    rewrite Z.pow_succ_r in Hx by lia.
    destruct (decide (x < lo + 2 ^ Z.of_nat k)).
    + apply (IH lo); [done | lia].
    + apply (IH (lo + 2 ^ Z.of_nat k)); [done | lia].
Qed.

(** Every day of an era passes the check (by evaluation). *)
Lemma doe_ok_all : all_in_block 18 (fun x => (146097 <=? x) || doe_ok x) 0 = true.
Proof. vm_compute. reflexivity. Qed.

Lemma doe_ok_spec (doe : Z) : 0 <= doe < 146097 -> doe_ok doe = true.
Proof.
  intros Hdoe.
  pose proof (all_in_block_spec _ _ _ doe_ok_all doe) as H.
  change (2 ^ Z.of_nat 18) with 262144 in H.
  specialize (H ltac:(lia)). apply orb_true_iff in H as [H|H]; [lia|done].
Qed.

(** The civil date of a day number is well formed, and converts back. *)
Lemma civil_from_days_spec (z : Z) :
  let '(y, m, d) := civil_from_days z in
  1 <= m <= 12 /\ 1 <= d <= 31 /\ days_from_civil y m d = z.
Proof.
  unfold civil_from_days.
  set (z' := z + 719468). set (era := z' / 146097).
  assert (0 <= z' - era * 146097 < 146097) as Hdoe
    by (unfold era; Z.div_mod_to_equations; lia).
  pose proof (doe_ok_spec _ Hdoe) as Hok. unfold doe_ok in Hok.
  destruct (civil_of_doe (z' - era * 146097)) as [[yoe m] d].
  repeat (apply andb_true_iff in Hok as [Hok ?]).
  split; [lia|]. split; [lia|].
  unfold days_from_civil.
  assert ((if m <=? 2 then yoe + era * 400 + (if m <=? 2 then 1 else 0) - 1
           else yoe + era * 400 + (if m <=? 2 then 1 else 0)) = yoe + era * 400) as ->
    by (destruct (m <=? 2); lia).
  assert ((yoe + era * 400) / 400 = era) as ->
    by (Z.div_mod_to_equations; lia).
  replace (yoe + era * 400 - era * 400) with yoe by lia.
  unfold z' in *. lia.
Qed.

Lemma mongo_month_range (t : Z) : 1 <= mongo_month t <= 12.
Proof.
  unfold mongo_month, MonthFromTime.
  pose proof (civil_from_days_spec (Day t)) as H.
  destruct (civil_from_days (Day t)) as [[y m] d]. simpl. lia.
Qed.



Lemma TimeWithinDay_shift (t n : Z) : TimeWithinDay (t - n * msPerDay) = TimeWithinDay t.
Proof.
  unfold TimeWithinDay. replace (t - n * msPerDay) with (t + (- n) * msPerDay) by lia.
  by rewrite Z.mod_add.
Qed.


(** ** Sums *)

Lemma foldl_Qplus {A} (f : A -> Q) (a : Q) (l : list A) :
  (foldl (fun s c => s + f c) a l == a + foldl (fun s c => s + f c) 0 l)%Q.
Proof.
  revert a. induction l as [|c l IH]; intros a; simpl; [lra|].
  rewrite (IH (a + f c)%Q), (IH (0 + f c)%Q). lra.
Qed.

Lemma foldl_Qplus_cons {A} (f : A -> Q) (c : A) (l : list A) :
  (foldl (fun s c => s + f c) 0 (c :: l) == f c + foldl (fun s c => s + f c) 0 l)%Q.
Proof. simpl. rewrite foldl_Qplus. lra. Qed.

Lemma sumQ_cons (x : Q) (l : list Q) : (sumQ (x :: l) == x + sumQ l)%Q.
Proof. apply (foldl_Qplus_cons (fun y => y)). Qed.

Lemma two_places_foldl {A} (f : A -> Q) (l : list A) :
  Forall (fun c => two_places (f c)) l ->
  two_places (foldl (fun s c => s + f c) 0 l)%Q.
Proof.
  induction 1 as [|c l Hc Hl IH]; [apply two_places_0|].
  rewrite foldl_Qplus_cons. by apply two_places_plus.
Qed.

Lemma foldl_nat_plus {A} (f : A -> nat) (a : nat) (l : list A) :
  foldl (fun s c => s + f c)%nat a l = (a + foldl (fun s c => s + f c)%nat 0%nat l)%nat.
Proof.
  revert a. induction l as [|c l IH]; intros a; simpl; [lia|].
  rewrite (IH (a + f c)%nat), (IH (f c)). lia.
Qed.

(** ** Monthly report: the summary *)

Lemma monthlyTotals_two_places tz userId year db :
  Forall (fun m => two_places (mt_totalAmount m)) (monthlyTotals tz userId year db).
Proof.
  apply Forall_forall. intros m (k & _ & ->)%elem_of_monthlyTotals.
  apply two_places_mongo_round2.
Qed.






(** ** Trend report: the summary *)










(** ** Category report: percentages *)

Lemma sumQ_fmap {A} (f : A -> Q) (l : list A) :
  (sumQ (f <$> l) == foldl (fun s c => s + f c) 0 l)%Q.
Proof.
  induction l as [|c l IH]; [reflexivity|]. rewrite fmap_cons.
  by rewrite sumQ_cons, foldl_Qplus_cons, IH.
Qed.

Lemma of_nat_S (n : nat) : (of_nat (S n) == of_nat n + 1)%Q.
Proof.
  unfold of_nat. rewrite Nat2Z.inj_succ. unfold Z.succ. rewrite inject_Z_plus. reflexivity.
Qed.

Lemma Qltb_lt (x y : Q) : Qltb x y = true <-> (x < y)%Q.
Proof.
  unfold Qltb. rewrite Qlt_alt. destruct (x ?= y)%Q; split; congruence.
Qed.

Lemma sumQ_lower (l : list Q) :
  Forall (fun x => 1 # 100 <= x)%Q l -> l <> [] -> (1 # 100 <= sumQ l)%Q.
Proof.
  induction 1 as [|x l Hx Hl IH]; [done|]. intros _. rewrite sumQ_cons.
  destruct l as [|y l]; [unfold sumQ; simpl; lra|].
  specialize (IH ltac:(done)). lra.
Qed.

(** [$round] never takes a figure of at least 0.01 below 0.01. *)
Lemma mongo_round2_lower (x : Q) : (1 # 100 <= x)%Q -> (1 # 100 <= mongo_round2 x)%Q.
Proof.
  intros Hx. unfold mongo_round2.
  assert (1 <= Qfloor (x * 100)) as Hf.
  { change 1 with (Qfloor 1). apply Qfloor_resp_le. lra. }
  set (f := Qfloor (x * 100)) in *.
  assert (forall n : Z, 1 <= n -> (1 # 100 <= inject_Z n / 100)%Q) as Hn.
  { intros n Hle. rewrite Zle_Qle in Hle. change (inject_Z 1) with 1%Q in Hle.
    apply Qle_shift_div_l; lra. }
  destruct (_ ?= _)%Q; [destruct (Z.even f)|..]; apply Hn; lia.
Qed.

Lemma categoryTotals_positive userId startDate endDate db :
  Forall (fun x => e_userId x = userId -> valid_amount x) db ->
  Forall (fun ct => (1 # 100 <= ct_totalAmount ct)%Q /\ (0 < ct_count ct)%nat)
         (categoryTotals userId startDate endDate db).
Proof.
  intros Hvalid. apply Forall_forall.
  intros ct (k & Hk & ->)%elem_of_categoryTotals. simpl.
  apply list_elem_of_fmap in Hk as (d & -> & Hd).
  set (g := filter _ _).
  assert (d ∈ g) as Hin by (by apply list_elem_of_filter).
  assert (g <> []) as Hne by (intros Hnil; rewrite Hnil in Hin; by apply not_elem_of_nil in Hin).
  split.
  - apply mongo_round2_lower, sumQ_lower; [|by destruct g].
    apply Forall_fmap, Forall_forall. intros x Hx. simpl.
    apply list_elem_of_filter in Hx as [_ Hx].
    apply list_elem_of_filter in Hx as [[Hu _] Hx].
    rewrite Forall_forall in Hvalid. by apply Hvalid.
  - destruct g; [done|simpl; lia].
Qed.

Lemma grandTotal_of_positive (cts : list CategoryTotal) :
  Forall (fun ct => (1 # 100 <= ct_totalAmount ct)%Q /\ (0 < ct_count ct)%nat) cts ->
  cts <> [] -> (0 < grandTotal_of cts)%Q.
Proof.
  unfold grandTotal_of. induction 1 as [|c l [Hc _] Hl IH]; [done|]. intros _.
  rewrite foldl_Qplus_cons.
  destruct l as [|c' l]; [simpl; lra|]. specialize (IH ltac:(done)). lra.
Qed.

Lemma totalCount_of_zero (cts : list CategoryTotal) :
  Forall (fun ct => (0 < ct_count ct)%nat) cts -> totalCount_of cts = 0%nat -> cts = [].
Proof.
  unfold totalCount_of. destruct 1 as [|c l Hc Hl]; [done|]. simpl.
  rewrite foldl_nat_plus. lia.
Qed.

Lemma categoryTotals_count_pos userId startDate endDate db :
  Forall (fun ct => (0 < ct_count ct)%nat) (categoryTotals userId startDate endDate db).
Proof.
  apply Forall_forall. intros ct (k & Hk & ->)%elem_of_categoryTotals. simpl.
  apply list_elem_of_fmap in Hk as (d & -> & Hd).
  assert (d ∈ filter (fun d' => e_category d' = e_category d)
                (match_category userId startDate endDate db)) as Hin
    by (by apply list_elem_of_filter).
  destruct (filter _ _); [by apply not_elem_of_nil in Hin|simpl; lia].
Qed.

(** Shares that are each within 0.005 of the exact share add up to 100
    times the total over [G], within 0.005 per share. *)
Lemma rounded_shares_sum {A} (t pf : A -> Q) (G : Q) (l : list A) :
  (0 < G)%Q ->
  (forall c, t c / G * 100 - (1 # 200) <= pf c /\ pf c <= t c / G * 100 + (1 # 200))%Q ->
  (foldl (fun s c => s + t c) 0 l / G * 100 - (1 # 200) * of_nat (length l)
     <= foldl (fun s c => s + pf c) 0 l
   /\ foldl (fun s c => s + pf c) 0 l
     <= foldl (fun s c => s + t c) 0 l / G * 100 + (1 # 200) * of_nat (length l))%Q.
Proof.
  intros HG Hpf. induction l as [|c l IH].
  - simpl. change (of_nat 0) with 0%Q. assert (0 / G == 0)%Q as -> by (field; lra). lra.
  - rewrite !foldl_Qplus_cons. simpl length. rewrite of_nat_S.
    assert ((t c + foldl (fun s c0 => s + t c0) 0 l) / G
            == t c / G + foldl (fun s c0 => s + t c0) 0 l / G)%Q as -> by (field; lra).
    specialize (Hpf c). lra.
Qed.

(** Each percentage is within 0.005 of the exact share. *)
Lemma percentage_error (G : Q) (c : CategoryTotal) :
  (0 < G)%Q ->
  (ct_totalAmount c / G * 100 - (1 # 200) <= cri_percentage (with_percentage G c)
   /\ cri_percentage (with_percentage G c) <= ct_totalAmount c / G * 100 + (1 # 200))%Q.
Proof.
  intros HG. simpl. rewrite (proj2 (Qltb_lt 0 G) HG).
  destruct (Math_round_bounds (ct_totalAmount c / G * 100 * 100)) as [H1 H2].
  set (u := (ct_totalAmount c / G)%Q) in *.
  set (z := inject_Z (Math_round (u * 100 * 100))) in *.
  assert (z / 100 == z * (1 # 100))%Q as -> by field.
  lra.
Qed.

Lemma categoryTotals_length_le userId startDate endDate db :
  (length (categoryTotals userId startDate endDate db) <= 9)%nat.
Proof.
  unfold categoryTotals, group_category.
  rewrite sort_by_length, !length_fmap, group_by_length.
  change 9%nat with (length all_categories).
  apply submseteq_length, NoDup_submseteq; [apply distinct_NoDup|].
  intros c _. destruct c; compute_done.
Qed.

(** C4 (as amended). When every stored amount of the user is at least 0.01
    (the schema's minimum) and totalCount > 0, the percentages of the
    category breakdown sum to 100 within 0.005 times the number of
    categories of the report (at most nine, so within 0.045); when
    totalCount = 0 the breakdown is the empty list and the sum is 0. *)
Theorem category_percentages_sum (userId : string) (startDate endDate : Z)
    (db : list IExpense) :
  Forall (fun x => e_userId x = userId -> valid_amount x) db ->
  let r := categoryReport userId startDate endDate db in
  let pct := sumQ (cri_percentage <$> cr_categoryBreakdown r) in
  let n := cs_categoriesCount (cr_summary r) in
  ((0 < cs_totalCount (cr_summary r))%nat ->
     (100 - (5 # 1000) * of_nat n <= pct /\ pct <= 100 + (5 # 1000) * of_nat n)%Q
     /\ (n <= 9)%nat)
  /\ (cs_totalCount (cr_summary r) = 0%nat ->
        cr_categoryBreakdown r = [] /\ pct = 0%Q).
Proof.
  intros Hvalid. simpl.
  set (cts := categoryTotals userId startDate endDate db).
  pose proof (categoryTotals_positive userId startDate endDate db Hvalid) as Hpos.
  fold cts in Hpos. split.
  - intros Hcount. split; [|apply categoryTotals_length_le].
    assert (cts <> []) as Hne
      by (intros Hnil; rewrite Hnil in Hcount; unfold totalCount_of in Hcount;
          simpl in Hcount; lia).
    pose proof (grandTotal_of_positive cts Hpos Hne) as HG.
    pose proof (rounded_shares_sum ct_totalAmount
                  (fun c => cri_percentage (with_percentage (grandTotal_of cts) c))
                  (grandTotal_of cts) cts HG
                  (fun c => percentage_error (grandTotal_of cts) c HG)) as Hb.
    fold (grandTotal_of cts) in Hb.
    rewrite <- list_fmap_compose, sumQ_fmap. unfold compose.
    assert (grandTotal_of cts / grandTotal_of cts == 1)%Q as Hone by (field; lra).
    rewrite Hone in Hb.
    assert ((5 # 1000) == (1 # 200))%Q as -> by reflexivity. lra.
  - intros Hzero.
    rewrite (totalCount_of_zero cts (categoryTotals_count_pos _ _ _ _) Hzero). done.
Qed.

Lemma category_percentages_sum_witness :
  let db := [expense "a" 10 5 FOOD "u"; expense "b" 30 6 SHOPPING "u";
             expense "c" 20 7 FOOD "u"] in
  let r := categoryReport "u" 0 10 db in
  let pct := sumQ (cri_percentage <$> cr_categoryBreakdown r) in
  let n := cs_categoriesCount (cr_summary r) in
  (100 - (5 # 1000) * of_nat n <= pct /\ pct <= 100 + (5 # 1000) * of_nat n)%Q.
Proof.
  intros db r pct n.
  assert (Forall (fun x => e_userId x = "u" -> valid_amount x) db) as Hvalid
    by (repeat constructor; vm_compute; congruence).
  assert (0 < cs_totalCount (cr_summary r))%nat as Hcount by (vm_compute; lia).
  exact (proj1 (proj1 (category_percentages_sum "u" 0 10 db Hvalid) Hcount)).
Defined.

(** C4 as stated fails: six categories with equal totals get 16.67 percent
    each, which sums to 100.02. *)
Lemma category_percentages_counterexample :
  let db := [expense "a" 1 5 FOOD "u"; expense "b" 1 5 SHOPPING "u";
             expense "c" 1 5 TRAVEL "u"; expense "d" 1 5 OTHER "u";
             expense "e" 1 5 UTILITIES "u"; expense "f" 1 5 EDUCATION "u"] in
  let r := categoryReport "u" 0 10 db in
  let pct := sumQ (cri_percentage <$> cr_categoryBreakdown r) in
  cs_totalCount (cr_summary r) = 6%nat
  /\ (pct == 10002 # 100)%Q
  /\ ~ (Qabs (pct - 100) <= 1 # 100)%Q.
Proof.
  repeat split; try (vm_compute; reflexivity).
  vm_compute. intros H. by apply H.
Qed.

(** ** Rounding of the emitted figures *)












(** ** Validation comes first *)

(** C5. When startDate is missing, endDate is missing, or endDate is
    strictly before startDate, getCategoryReport answers with a validation
    error (status 400) and nothing else: the body carries only the error
    messages, the store is never queried, and the world is left as it was. *)
Theorem category_validation_before_aggregation (Joi_date : string -> option Z)
    (req : Request) (w : World) :
  (req_query req !! "startDate" = None
   \/ req_query req !! "endDate" = None
   \/ exists s e, req_query req !! "startDate" ≫= Joi_date = Some s
                  /\ req_query req !! "endDate" ≫= Joi_date = Some e
                  /\ e < s) ->
  let h := getCategoryReport Joi_date req in
  res_status (response_of h w) = 400
  /\ res_success (response_of h w) = false
  /\ res_message (response_of h w) = "Validation error"
  /\ (exists errors, res_body (response_of h w) = Errors errors)
  /\ store_calls h w = []
  /\ (h w).2 = w.
Proof.
  intros Hbad.
  assert (exists errors, reportQuerySchema_validate Joi_date (req_query req) = inl errors)
    as [errors Herr].
  { unfold reportQuerySchema_validate.
    destruct Hbad as [Hs|[He|(s & e & Hs & He & Hlt)]].
    - rewrite Hs. eauto.
    - destruct (req_query req !! "startDate") as [s|]; [|eauto].
      destruct (Joi_date s); [|eauto]. rewrite He. eauto.
    - destruct (req_query req !! "startDate") as [s'|]; [|done]. simpl in Hs. rewrite Hs.
      destruct (req_query req !! "endDate") as [e'|]; [|done]. simpl in He. rewrite He.
      apply Z.ltb_lt in Hlt. rewrite Hlt. eauto. }
  simpl. unfold response_of, store_calls, getCategoryReport. rewrite Herr. simpl.
  repeat split; eauto. by rewrite drop_all.
Qed.

Lemma category_validation_before_aggregation_witness :
  let req := {| req_userId := "u";
                req_query := query_of [("startDate", "2025-12-31"); ("endDate", "2025-01-01")] |} in
  let w := world [expense "a" 200 1735646400000 SHOPPING "u"] 0 1735819200000 in
  res_status (response_of (getCategoryReport parse_iso_date req) w) = 400
  /\ store_calls (getCategoryReport parse_iso_date req) w = [].
Proof.
  intros req w.
  assert (exists s e, req_query req !! "startDate" ≫= parse_iso_date = Some s
                      /\ req_query req !! "endDate" ≫= parse_iso_date = Some e
                      /\ e < s) as Hbad.
  { exists 1767139200000, 1735689600000. repeat split; vm_compute; reflexivity. }
  pose proof (category_validation_before_aggregation parse_iso_date req w
                (or_intror (or_intror Hbad))) as (Hst & _ & _ & _ & Hcalls & _).
  split; [exact Hst|exact Hcalls].
Defined.

(** ** The last day of the year *)

(** C8: the code at the failing input.  A record of the user dated
    2024-12-31 at noon (UTC, server in UTC) falls in the requested year, on
    December 31, and the monthly report of 2024 leaves it out: the upper
    bound of the match is the first instant of December 31. *)
Lemma monthly_misses_december_31 :
  let e := expense "a" 10 1735646400000 FOOD "u" in
  let r := monthlyReport 0 "u" 2024 [e] in
  day_key e = (2024, 12, 31)
  /\ Date_of_parts 0 2024 11 31 = 1735603200000
  /\ ms_yearlyCount (mr_summary r) = 0%nat
  /\ ms_yearlyTotal (mr_summary r) = round2 0
  /\ mri_count <$> mr_monthlyBreakdown r !! 11%nat = Some 0%nat.
Proof. repeat split; vm_compute; reflexivity. Qed.

(** ** Running a report again *)


Lemma getCategoryReport_world Joi_date req w :
  w_db (getCategoryReport Joi_date req w).2 = w_db w.
Proof.
  unfold getCategoryReport. destruct (reportQuerySchema_validate _ _) as [errs|[s e]]; done.
Qed.

Lemma getMonthlyReport_world parseInt req w :
  let w' := (getMonthlyReport parseInt req w).2 in
  w_db w' = w_db w /\ w_tz w' = w_tz w /\ w_clock w' = w_clock w.
Proof.
  unfold getMonthlyReport, parseInt_or, bind, timezone. simpl.
  destruct (req_query req !! "year" ≫= parseInt) as [n|]; [destruct (n =? 0)|]; done.
Qed.

Lemma getExpenseTrends_world parseInt req w :
  let w' := (getExpenseTrends parseInt req w).2 in
  w_db w' = w_db w /\ w_tz w' = w_tz w /\ w_clock w' = w_clock w.
Proof.
  unfold getExpenseTrends, parseInt_or, bind. simpl.
  destruct (req_query req !! "days" ≫= parseInt) as [n|]; [destruct (n =? 0)|]; done.
Qed.

Lemma getExpenseSummary_world req w :
  let w' := (getExpenseSummary req w).2 in
  w_db w' = w_db w /\ w_tz w' = w_tz w /\ w_clock w' = w_clock w.
Proof. done. Qed.




(** ** The scenarios of the specification, by evaluation *)

(** Two Food expenses (10.00, 20.00) and one Shopping expense (30.00) in
    range: both categories total 30.00 and get 50.00 percent; the tie keeps
    the order of first occurrence. *)
Example scenario_category_report :
  let db := [expense "a" 10 5 FOOD "u"; expense "b" 20 6 FOOD "u";
             expense "c" 30 7 SHOPPING "u"] in
  let r := categoryReport "u" 0 10 db in
  cs_grandTotal (cr_summary r) = (6000 # 100)%Q
  /\ cs_totalCount (cr_summary r) = 3%nat
  /\ (fun c => (cri_category c, cri_totalAmount c, cri_count c, cri_avgAmount c,
                cri_percentage c)) <$> cr_categoryBreakdown r
     = [(FOOD, (3000 # 100)%Q, 2%nat, (1500 # 100)%Q, (5000 # 100)%Q);
        (SHOPPING, (3000 # 100)%Q, 1%nat, (3000 # 100)%Q, (5000 # 100)%Q)].
Proof. repeat split; vm_compute; reflexivity. Qed.

(** monthlyReport(year = 1999) for a user without records in that year. *)
Example scenario_monthly_report_empty_year :
  let req := {| req_userId := "u"; req_query := query_of [("year", "1999")] |} in
  let w := world [expense "a" 200 1735646400000 SHOPPING "u"] 0 1735819200000 in
  exists d, res_body (response_of (getMonthlyReport parse_decimal req) w) = MonthlyData d
    /\ ms_yearlyTotal (mr_summary d) = (0 # 100)%Q
    /\ ms_activeMonths (mr_summary d) = 0%nat
    /\ mri_count <$> mr_monthlyBreakdown d = replicate 12 0%nat.
Proof. eexists. repeat split; vm_compute; reflexivity. Qed.

(** trendReport(days = 30) with one record 40 days before the request and
    one 5 days before it: only the latter day appears. *)
Example scenario_trend_report_window :
  let now := 1735819200000 in
  let db := [expense "a" 10 (now - 40 * msPerDay) FOOD "u";
             expense "b" 20 (now - 5 * msPerDay) FOOD "u"] in
  let r := trendReport 0 now (now + 1) "u" 30 db in
  tr_activeDays (tr_summary r) = 1%nat
  /\ dt_date <$> tr_dailyTrends r = [Day (now - 5 * msPerDay) * msPerDay].
Proof. repeat split; vm_compute; reflexivity. Qed.

(** categoryReport with only startDate. *)
Example scenario_category_report_missing_endDate :
  let req := {| req_userId := "u"; req_query := query_of [("startDate", "2025-01-01")] |} in
  let w := world [expense "a" 200 1735646400000 SHOPPING "u"] 0 1735819200000 in
  response_of (getCategoryReport parse_iso_date req) w
  = {| res_status := 400; res_success := false; res_message := "Validation error";
       res_body := Errors ["End date is required"] |}.
Proof. vm_compute. reflexivity. Qed.

(** * Further properties of the report code *)

(** ** Sorting and counting *)

Section SortingOrder.
Context {A : Type} (le : A -> A -> bool).
Hypothesis le_total : forall x y, le x y = false -> le y x = true.
Hypothesis le_trans : forall x y z, le x y = true -> le y z = true -> le x z = true.

Lemma insert_sorted_sorted (x : A) (l : list A) :
  StronglySorted (fun a b => le a b = true) l ->
  StronglySorted (fun a b => le a b = true) (insert_sorted le x l).
Proof.
  induction 1 as [|y l Hl IH Hy]; simpl; [repeat constructor|].
  destruct (le x y) eqn:Hxy.
  - constructor; [by constructor|]. constructor; [done|].
    eapply Forall_impl; [exact Hy|]. intros z Hz. by eapply le_trans.
  - constructor; [done|]. rewrite insert_sorted_perm. constructor; [by apply le_total|done].
Qed.

Lemma sort_by_sorted (l : list A) : StronglySorted (fun a b => le a b = true) (sort_by le l).
Proof.
  induction l as [|x l IH]; [constructor|]. by apply insert_sorted_sorted.
Qed.
End SortingOrder.

Lemma StronglySorted_weaken {A} (R R' : A -> A -> Prop) (l : list A) :
  (forall a b, R a b -> R' a b) -> StronglySorted R l -> StronglySorted R' l.
Proof.
  intros HR. induction 1 as [|x l Hl IH Hx]; constructor; [done|].
  eapply Forall_impl; [exact Hx|]. auto.
Qed.

Lemma by_totalAmount_desc_sorted {A} (total : A -> Q) (l : list A) :
  StronglySorted (fun a b => (total b <= total a)%Q)
    (sort_by (by_totalAmount_desc total) l).
Proof.
  eapply StronglySorted_weaken; [|apply sort_by_sorted].
  - intros a b Hab. by apply Qle_bool_iff.
  - intros x y Hxy. unfold by_totalAmount_desc in *. apply Qle_bool_iff.
    destruct (Qle_bool (total y) (total x)) eqn:H; [done|].
    destruct (Qlt_le_dec (total x) (total y)) as [Hlt|Hle]; [by apply Qlt_le_weak|].
    apply Qle_bool_iff in Hle. congruence.
  - intros x y z. unfold by_totalAmount_desc. rewrite !Qle_bool_iff. intros.
    by eapply Qle_trans.
Qed.


Lemma foldl_nat_sum_list {A} (f : A -> nat) (l : list A) :
  foldl (fun s c => s + f c)%nat 0%nat l = sum_list_with f l.
Proof.
  induction l as [|c l IH]; [done|]. simpl. rewrite foldl_nat_plus, IH. lia.
Qed.

Lemma sum_list_with_fmap {A B} (f : B -> nat) (g : A -> B) (l : list A) :
  sum_list_with f (g <$> l) = sum_list_with (fun x => f (g x)) l.
Proof. induction l as [|x l IH]; [done|]. csimpl. by rewrite IH. Qed.

Lemma length_filter_all {A} (P : A -> Prop) `{forall x, Decision (P x)} (l : list A) :
  Forall P l -> length (filter P l) = length l.
Proof.
  induction 1 as [|x l Hx Hl IH]; [done|]. rewrite filter_cons_True by done. simpl. by rewrite IH.
Qed.

Lemma length_filter_mono {A} (P Q : A -> Prop) `{forall x, Decision (P x)}
    `{forall x, Decision (Q x)} (l : list A) :
  (forall x, P x -> Q x) -> (length (filter P l) <= length (filter Q l))%nat.
Proof.
  intros HPQ. induction l as [|x l IH]; [done|]. rewrite !filter_cons.
  destruct (decide (P x)) as [HP|HP].
  - rewrite decide_True by auto. simpl. lia.
  - destruct (decide (Q x)); simpl; lia.
Qed.

(** Every document falls in exactly one group. *)
Lemma count_by_keys {A K} `{EqDecision K} (key : A -> K) (docs : list A) (ks : list K) :
  NoDup ks ->
  sum_list_with (fun k => length (filter (fun d => key d = k) docs)) ks
  = length (filter (fun d => key d ∈ ks) docs).
Proof.
  induction 1 as [|k ks Hk Hks IH]; simpl.
  - induction docs as [|d docs IHd]; [done|]. rewrite filter_cons_False; [done|].
    apply not_elem_of_nil.
  - rewrite IH. clear IH. induction docs as [|d docs IHd]; [done|].
    rewrite !filter_cons.
    destruct (decide (key d = k)) as [->|Hne].
    + rewrite decide_False by done. rewrite decide_True by (rewrite elem_of_cons; tauto).
      simpl. lia.
    + destruct (decide (key d ∈ ks)) as [Hin|Hin].
      * rewrite decide_True by (rewrite elem_of_cons; tauto). simpl. lia.
      * rewrite decide_False by (rewrite elem_of_cons; tauto). lia.
Qed.

Lemma group_sizes {A K} `{EqDecision K} (key : A -> K) (docs : list A) :
  sum_list_with (fun kg => length kg.2) (group_by key docs) = length docs.
Proof.
  unfold group_by. rewrite sum_list_with_fmap. simpl.
  rewrite count_by_keys by apply distinct_NoDup.
  apply length_filter_all, Forall_forall. intros d Hd.
  apply distinct_elem_of. by apply list_elem_of_fmap_2.
Qed.

(** ** Category report: order, categories and counts *)

Lemma categoryTotals_categories userId startDate endDate db :
  ct_category <$> categoryTotals userId startDate endDate db
  ≡ₚ distinct (e_category <$> match_category userId startDate endDate db).
Proof.
  unfold categoryTotals, group_category. rewrite sort_by_perm.
  rewrite <- !list_fmap_compose, <- group_by_keys. apply reflexive_eq.
  by apply list_fmap_ext.
Qed.

Lemma categoryBreakdown_categories userId startDate endDate db :
  cri_category <$> cr_categoryBreakdown (categoryReport userId startDate endDate db)
  = ct_category <$> categoryTotals userId startDate endDate db.
Proof.
  unfold categoryReport, categoryReport_of. simpl.
  rewrite <- list_fmap_compose. by apply list_fmap_ext.
Qed.

(** The category breakdown is sorted by totalAmount, largest first; it has
    exactly one entry for each category that occurs among the matched
    records, and no entry for any other category. *)
Theorem category_breakdown_sorted_distinct (userId : string) (startDate endDate : Z)
    (db : list IExpense) :
  let matched := match_category userId startDate endDate db in
  let breakdown := cr_categoryBreakdown (categoryReport userId startDate endDate db) in
  StronglySorted (fun a b => (cri_totalAmount b <= cri_totalAmount a)%Q) breakdown
  /\ NoDup (cri_category <$> breakdown)
  /\ (forall c, c ∈ cri_category <$> breakdown <-> c ∈ e_category <$> matched).
Proof.
  intros matched breakdown. subst matched breakdown. split; [|split].
  - unfold categoryReport, categoryReport_of, cr_categoryBreakdown.
    apply (StronglySorted_fmap _ (fun a b => (ct_totalAmount b <= ct_totalAmount a)%Q));
      [done|apply by_totalAmount_desc_sorted].
  - rewrite categoryBreakdown_categories, categoryTotals_categories. apply distinct_NoDup.
  - intros c. rewrite categoryBreakdown_categories, categoryTotals_categories.
    apply distinct_elem_of.
Qed.

Lemma categoryTotals_total_count userId startDate endDate db :
  sum_list_with ct_count (categoryTotals userId startDate endDate db)
  = length (match_category userId startDate endDate db).
Proof.
  unfold categoryTotals, group_category. rewrite sort_by_perm.
  rewrite !sum_list_with_fmap. simpl. apply group_sizes.
Qed.

(** The counts of a category report add up: each entry counts the matched
    records of its category, totalCount is the number of matched records and
    the sum of the entries' counts, categoriesCount is the number of entries,
    and grandTotal is the sum of the entries' totalAmount. *)
Theorem category_report_counts (userId : string) (startDate endDate : Z)
    (db : list IExpense) :
  let matched := match_category userId startDate endDate db in
  let r := categoryReport userId startDate endDate db in
  let breakdown := cr_categoryBreakdown r in
  Forall (fun c => cri_count c
                   = length (filter (fun x => e_category x = cri_category c) matched))
         breakdown
  /\ cs_totalCount (cr_summary r) = length matched
  /\ cs_totalCount (cr_summary r) = sum_list_with cri_count breakdown
  /\ cs_categoriesCount (cr_summary r) = length breakdown
  /\ (cs_grandTotal (cr_summary r) == sumQ (cri_totalAmount <$> breakdown))%Q.
Proof.
  simpl. split; [|split; [|split; [|split]]].
  - apply Forall_forall. intros c (ct & Hct & ->)%elem_of_categoryBreakdown.
    apply elem_of_categoryTotals in Hct as (k & _ & ->). reflexivity.
  - unfold totalCount_of. rewrite foldl_nat_sum_list. apply categoryTotals_total_count.
  - unfold totalCount_of. rewrite foldl_nat_sum_list, sum_list_with_fmap. reflexivity.
  - by rewrite length_fmap.
  - rewrite <- list_fmap_compose, sumQ_fmap. unfold compose. simpl.
    apply round2_two_places, two_places_foldl, Forall_forall.
    intros ct (k & _ & ->)%elem_of_categoryTotals. apply two_places_mongo_round2.
Qed.

(** Widening the date range of a category report never lowers totalCount
    or categoriesCount. *)
Theorem category_range_monotone (userId : string) (s e s' e' : Z) (db : list IExpense) :
  s' <= s -> e <= e' ->
  (cs_totalCount (cr_summary (categoryReport userId s e db))
   <= cs_totalCount (cr_summary (categoryReport userId s' e' db)))%nat
  /\ (cs_categoriesCount (cr_summary (categoryReport userId s e db))
      <= cs_categoriesCount (cr_summary (categoryReport userId s' e' db)))%nat.
Proof.
  intros Hs He. split.
  - simpl. unfold totalCount_of. rewrite !foldl_nat_sum_list, !categoryTotals_total_count.
    apply length_filter_mono. intros x. intuition lia.
  - simpl. rewrite <- !(length_fmap ct_category), !categoryTotals_categories.
    apply submseteq_length, NoDup_submseteq; [apply distinct_NoDup|].
    intros c. rewrite !distinct_elem_of, !list_elem_of_fmap.
    intros (x & -> & Hx). exists x. split; [done|].
    unfold match_category in *. rewrite list_elem_of_filter in *. intuition lia.
Qed.

Lemma category_range_monotone_witness :
  let db := [expense "a" 10 5 FOOD "u"; expense "b" 30 20 SHOPPING "u"] in
  (cs_totalCount (cr_summary (categoryReport "u" 0 10 db))
   <= cs_totalCount (cr_summary (categoryReport "u" 0 30 db)))%nat.
Proof.
  intros db. apply (category_range_monotone "u" 0 10 0 30 db); lia.
Defined.

(** ** Sums of figures *)

Lemma foldl_Qplus_perm {A} (f : A -> Q) (l l' : list A) :
  l ≡ₚ l' ->
  (foldl (fun s c => s + f c) 0 l == foldl (fun s c => s + f c) 0 l')%Q.
Proof.
  induction 1 as [|x l l' _ IH|x y l|l l' l'' _ IH1 _ IH2].
  - reflexivity.
  - by rewrite !foldl_Qplus_cons, IH.
  - rewrite !foldl_Qplus_cons. lra.
  - by rewrite IH1.
Qed.

Lemma foldl_Qplus_filter {A} (f : A -> Q) (P : A -> Prop) `{forall x, Decision (P x)}
    (l : list A) :
  (foldl (fun s c => s + (if decide (P c) then f c else 0)) 0 l
   == foldl (fun s c => s + f c) 0 (filter P l))%Q.
Proof.
  induction l as [|x l IH]; [reflexivity|].
  rewrite foldl_Qplus_cons, filter_cons, IH.
  destruct (decide (P x)); [by rewrite foldl_Qplus_cons|lra].
Qed.

Lemma foldl_Qplus_ext {A} (f g : A -> Q) (l : list A) :
  (forall x, f x == g x)%Q ->
  (foldl (fun s c => s + f c) 0 l == foldl (fun s c => s + g c) 0 l)%Q.
Proof.
  intros Hfg. induction l as [|x l IH]; [reflexivity|].
  by rewrite !foldl_Qplus_cons, IH, Hfg.
Qed.

Lemma sum_list_with_Forall_ext {A} (f g : A -> nat) (l : list A) :
  Forall (fun x => f x = g x) l -> sum_list_with f l = sum_list_with g l.
Proof. induction 1 as [|x l Hx _ IH]; [done|]. simpl. by rewrite IH, Hx. Qed.

(** ** Monthly report: the breakdown accounts for every matched record *)

Lemma month_entry tz userId year db (k : Z) :
  let matched := match_monthly tz userId year db in
  let found := array_find (fun m => mt_month m = k) (monthlyTotals tz userId year db) in
  let docs := filter (fun e => month_key e = k) matched in
  if decide (k ∈ month_key <$> matched)
  then found = Some (project_monthly (month_group (k, docs)))
  else found = None /\ docs = [].
Proof.
  simpl. destruct (decide _) as [Hin|Hout].
  - unfold array_find.
    destruct (list_find _ _) as [[i m]|] eqn:Hfind; simpl.
    + apply list_find_Some in Hfind as (Hi & Hk & _).
      apply list_elem_of_lookup_2, elem_of_monthlyTotals in Hi as (k' & _ & ->).
      simpl in Hk. by subst k'.
    + apply list_find_None in Hfind. rewrite Forall_forall in Hfind. exfalso.
      eapply (Hfind _ (proj2 (elem_of_monthlyTotals _ _ _ _ _) (ex_intro _ k (conj Hin eq_refl)))).
      reflexivity.
  - split.
    + apply array_find_None, Forall_forall.
      intros m (k' & Hk' & ->)%elem_of_monthlyTotals Heq. simpl in Heq. by subst k'.
    + destruct (filter _ _) as [|e l] eqn:Hf; [done|]. exfalso. apply Hout.
      assert (e ∈ filter (fun e => month_key e = k) (match_monthly tz userId year db)) as He
        by (rewrite Hf; apply elem_of_cons; by left).
      apply list_elem_of_filter in He as [<- He]. by apply list_elem_of_fmap_2.
Qed.

Lemma monthly_breakdown_fields tz userId year db :
  let mts := monthlyTotals tz userId year db in
  mr_monthlyBreakdown (monthlyReport tz userId year db)
  = (fun k => let monthData := array_find (fun m => mt_month m = k) mts in
              {| mri_month := k;
                 mri_monthName := default "" (monthNames !! Z.to_nat (k - 1));
                 mri_totalAmount := from_option mt_totalAmount 0%Q monthData;
                 mri_count := from_option mt_count 0%nat monthData;
                 mri_avgAmount := from_option mt_avgAmount 0%Q monthData |})
    <$> months_1_12.
Proof. reflexivity. Qed.

(** The monthly breakdown accounts for every matched record exactly once:
    each entry counts the matched records of its month, the twelve counts
    add up to yearlyCount, which is the number of matched records, and the
    twelve totals add up to yearlyTotal. *)
Theorem monthly_breakdown_accounts (tz : Z) (userId : string) (year : Z) (db : list IExpense) :
  let matched := match_monthly tz userId year db in
  let r := monthlyReport tz userId year db in
  Forall (fun it => mri_count it
                    = length (filter (fun e => mongo_month (e_date e) = mri_month it) matched))
         (mr_monthlyBreakdown r)
  /\ ms_yearlyCount (mr_summary r) = length matched
  /\ sum_list_with mri_count (mr_monthlyBreakdown r) = ms_yearlyCount (mr_summary r)
  /\ (ms_yearlyTotal (mr_summary r) == sumQ (mri_totalAmount <$> mr_monthlyBreakdown r))%Q.
Proof.
  intros matched r.
  assert (Forall (fun it => mri_count it
                    = length (filter (fun e => mongo_month (e_date e) = mri_month it) matched))
                 (mr_monthlyBreakdown r)) as Hentries.
  { unfold r. rewrite monthly_breakdown_fields. apply Forall_fmap, Forall_forall.
    intros k _. simpl. pose proof (month_entry tz userId year db k) as Hk. simpl in Hk.
    destruct (decide _); [by rewrite Hk|]. destruct Hk as [-> Hnil].
    unfold matched. unfold month_key in Hnil. by rewrite Hnil. }
  assert (ms_yearlyCount (mr_summary r) = length matched) as Hcount.
  { unfold r. simpl. unfold yearlyCount_of. rewrite foldl_nat_sum_list.
    unfold monthlyTotals, group_monthly. rewrite sort_by_perm, !sum_list_with_fmap. simpl.
    apply group_sizes. }
  assert (forall e, e ∈ matched -> month_key e ∈ months_1_12) as Hrange.
  { intros e _. pose proof (mongo_month_range (e_date e)) as Hr.
    apply (elem_of_seqZ 1 12). unfold month_key. lia. }
  split; [exact Hentries|]. split; [exact Hcount|]. split.
  - rewrite Hcount, (sum_list_with_Forall_ext _ _ _ Hentries).
    unfold r. rewrite monthly_breakdown_fields, sum_list_with_fmap.
    transitivity (sum_list_with
                    (fun k => length (filter (fun d => month_key d = k) matched)) months_1_12);
      [reflexivity|].
    rewrite (count_by_keys month_key matched months_1_12) by compute_done.
    apply length_filter_all, Forall_forall, Hrange.
  - unfold r. rewrite monthly_breakdown_fields, <- list_fmap_compose, sumQ_fmap.
    change (ms_yearlyTotal (mr_summary (monthlyReport tz userId year db)))
      with (round2 (yearlyTotal_of (monthlyTotals tz userId year db))).
    rewrite round2_two_places by apply two_places_foldl, monthlyTotals_two_places.
    unfold compose. cbn [mri_totalAmount].
    set (h := fun k : Z => mongo_round2
                (sumQ (e_amount <$> filter (fun e => month_key e = k) matched))).
    rewrite (foldl_Qplus_ext _ (fun k => if decide (k ∈ month_key <$> matched)
                                         then h k else 0%Q)).
    2: { intros k. pose proof (month_entry tz userId year db k) as Hk. simpl in Hk.
         destruct (decide _); [by rewrite Hk|]. destruct Hk as [-> _]. reflexivity. }
    rewrite foldl_Qplus_filter.
    unfold yearlyTotal_of, monthlyTotals, group_monthly, group_by.
    rewrite (foldl_Qplus_perm _ _ _ (sort_by_perm _ _)).
    rewrite !foldl_fmap. simpl. fold matched.
    apply foldl_Qplus_perm. symmetry.
    apply NoDup_Permutation.
    + apply NoDup_filter. by compute_done.
    + apply distinct_NoDup.
    + intros k. rewrite list_elem_of_filter, distinct_elem_of. split; [tauto|].
      intros Hk. split; [done|].
      apply list_elem_of_fmap in Hk as (e & -> & He). by apply Hrange.
Qed.

(** ** Trend report: the daily entries *)











(** ** Top categories *)



(** ** Recent expenses *)


(** ** Summary overview *)

Lemma group_by_unit {A} (docs : list A) :
  group_by (fun _ => tt) docs = match docs with [] => [] | _ => [(tt, docs)] end.
Proof.
  unfold group_by. destruct docs as [|d docs]; [done|]. csimpl.
  assert (forall l : list A, filter (fun k' : unit => k' <> tt) (distinct ((fun _ => tt) <$> l)) = [])
    as -> by (intros l; induction (distinct _) as [|[] ks IH]; [done|];
              by rewrite filter_cons_False by auto).
  csimpl. do 2 f_equal.
  rewrite filter_cons_True by done. f_equal.
  induction docs as [|x docs IH]; [done|]. by rewrite filter_cons_True, IH by done.
Qed.

Lemma minQ_le (l : list Q) (x : Q) : x ∈ l -> (minQ l <= x)%Q.
Proof.
  destruct l as [|y l]; [by intros ?%not_elem_of_nil|]. simpl.
  assert (forall (a : Q) (l : list Q), (foldl Qmin a l <= a)%Q
                                       /\ Forall (fun z => foldl Qmin a l <= z)%Q l) as H.
  { intros a l0. revert a. induction l0 as [|z l0 IH]; intros a; simpl.
    - split; [lra|constructor].
    - destruct (IH (Qmin a z)) as [H1 H2].
      pose proof (Q.le_min_l a z). pose proof (Q.le_min_r a z).
      split; [lra|]. constructor; [lra|done]. }
  destruct (H y l) as [H1 H2]. rewrite elem_of_cons. intros [Heq|Hin].
  - by rewrite Heq.
  - rewrite Forall_forall in H2. by apply H2.
Qed.

Lemma maxQ_ge (l : list Q) (x : Q) : x ∈ l -> (x <= maxQ l)%Q.
Proof.
  destruct l as [|y l]; [by intros ?%not_elem_of_nil|]. simpl.
  assert (forall (a : Q) (l : list Q), (a <= foldl Qmax a l)%Q
                                       /\ Forall (fun z => z <= foldl Qmax a l)%Q l) as H.
  { intros a l0. revert a. induction l0 as [|z l0 IH]; intros a; simpl.
    - split; [lra|constructor].
    - destruct (IH (Qmax a z)) as [H1 H2].
      pose proof (Q.le_max_l a z). pose proof (Q.le_max_r a z).
      split; [lra|]. constructor; [lra|done]. }
  destruct (H y l) as [H1 H2]. rewrite elem_of_cons. intros [Heq|Hin].
  - by rewrite Heq.
  - rewrite Forall_forall in H2. by apply H2.
Qed.

Lemma sumQ_bounds (lo hi : Q) (l : list Q) :
  Forall (fun x => lo <= x /\ x <= hi)%Q l ->
  (lo * of_nat (length l) <= sumQ l /\ sumQ l <= hi * of_nat (length l))%Q.
Proof.
  induction 1 as [|x l [H1 H2] _ IH].
  - unfold sumQ. simpl. change (of_nat 0) with 0%Q. lra.
  - rewrite sumQ_cons. simpl length. rewrite of_nat_S. lra.
Qed.

Lemma avgQ_bounds (l : list Q) : l <> [] -> (minQ l <= avgQ l /\ avgQ l <= maxQ l)%Q.
Proof.
  intros Hne. unfold avgQ.
  assert (0 < of_nat (length l))%Q as Hpos.
  { destruct l as [|x l]; [done|]. simpl length. rewrite of_nat_S.
    assert (0 <= of_nat (length l))%Q; [|lra].
    unfold of_nat. change 0%Q with (inject_Z 0). rewrite <- Zle_Qle. lia. }
  destruct (sumQ_bounds (minQ l) (maxQ l) l) as [H1 H2].
  { apply Forall_forall. intros x Hx. split; [by apply minQ_le|by apply maxQ_ge]. }
  split.
  - apply Qle_shift_div_l; [done|lra].
  - apply Qle_shift_div_r; [done|lra].
Qed.

Lemma round2_mono (x y : Q) : (x <= y)%Q -> (round2 x <= round2 y)%Q.
Proof.
  intros Hxy. unfold round2, Math_round.
  assert (Qfloor (x * 100 + (1 # 2)) <= Qfloor (y * 100 + (1 # 2))) as Hf
    by (apply Qfloor_resp_le; lra).
  rewrite Zle_Qle in Hf.
  apply Qle_shift_div_l; [lra|].
  assert (inject_Z (Qfloor (x * 100 + (1 # 2))) / 100 * 100
          == inject_Z (Qfloor (x * 100 + (1 # 2))))%Q as -> by field.
  done.
Qed.

(** The overview of the summary: totalCount is the number of the user's
    records and bounds the count of the current month; without records every
    figure is zero; with records, totalExpenses is their rounded sum, and the
    rounded minimum, average and maximum are in this order and enclose every
    rounded amount. *)
Theorem summary_overview_figures (tz n1 n2 n3 n4 : Z) (userId : string) (db : list IExpense) :
  let own := match_user userId db in
  let r := summaryReport tz n1 n2 n3 n4 userId db in
  let o := sr_overview r in
  so_totalCount o = length own
  /\ (sc_count (sr_currentMonth r) <= so_totalCount o)%nat
  /\ (own = [] ->
      (so_totalExpenses o == 0 /\ so_averageExpense o == 0
       /\ so_minExpense o == 0 /\ so_maxExpense o == 0)%Q
      /\ sr_topCategories r = [] /\ sr_recentExpenses r = [])
  /\ (own <> [] ->
      so_totalExpenses o = round2 (sumQ (e_amount <$> own))
      /\ (so_minExpense o <= so_averageExpense o /\ so_averageExpense o <= so_maxExpense o)%Q
      /\ Forall (fun e => (so_minExpense o <= round2 (e_amount e)
                           /\ round2 (e_amount e) <= so_maxExpense o)%Q) own).
Proof.
  intros own r o.
  assert (totalExpenses userId db
          = match own with [] => [] | _ => [total_group (tt, own)] end) as Htotals.
  { unfold totalExpenses. fold own. rewrite group_by_unit. by destruct own. }
  split; [|split; [|split]].
  - unfold o, r, summaryReport, summaryReport_of. simpl. rewrite Htotals. by destruct own.
  - unfold o, r, summaryReport, summaryReport_of. simpl. rewrite Htotals.
    unfold currentMonthExpenses. rewrite group_by_unit.
    set (m := match_category _ _ _ _).
    assert (length m <= length own)%nat as Hle.
    { unfold m, own, match_category, match_user. apply length_filter_mono. tauto. }
    destruct m, own; simpl in *; lia.
  - intros Hnil. unfold o, r, summaryReport, summaryReport_of, categoryBreakdown_top,
      recentExpenses. simpl. rewrite Htotals. fold own. rewrite Hnil. simpl.
    repeat split; reflexivity.
  - intros Hne. unfold o, r, summaryReport, summaryReport_of. simpl. rewrite Htotals.
    destruct own as [|e0 own'] eqn:Hown; [done|]. rewrite <- Hown in *. simpl.
    assert (e_amount <$> own <> []) as Hne' by (rewrite Hown; done).
    pose proof (avgQ_bounds _ Hne') as [Havg1 Havg2].
    split; [done|]. split; [split; by apply round2_mono|].
    apply Forall_forall. intros e He.
    split; apply round2_mono; [apply minQ_le|apply maxQ_ge]; by apply list_elem_of_fmap_2.
Qed.

Lemma summary_overview_figures_witness :
  let r := summaryReport 0 1 2 3 4 "u" [expense "a" 10 5 FOOD "u"; expense "b" 30 6 FOOD "u"] in
  (so_minExpense (sr_overview r) <= so_averageExpense (sr_overview r)
   /\ so_averageExpense (sr_overview r) <= so_maxExpense (sr_overview r))%Q.
Proof.
  intros r.
  refine (proj1 (proj2 (proj2 (proj2 (proj2 (summary_overview_figures 0 1 2 3 4 "u" _))) _))).
  vm_compute. discriminate.
Defined.

(** ** getExpenseStats *)

Lemma getExpenseStats_reply (req : Request) (w : World) :
  (getExpenseStats req w).1 =
  {| rp_status := 200; rp_success := true;
     rp_message := "Expense statistics retrieved successfully";
     rp_payload :=
       StatsData (expenseStats (w_tz w) (w_clock w (w_ticks w)) (req_userId req) (w_db w)).1
                 (expenseStats (w_tz w) (w_clock w (w_ticks w)) (req_userId req) (w_db w)).2 |}.
Proof. reflexivity. Qed.

(** The one document of a [_id: null] group, or the zero default. *)
Lemma stats_of_docs (docs : list IExpense) :
  let s := default zero_stats (head (stats_group <$> group_by (fun _ => tt) docs)) in
  sg_totalCount s = length docs
  /\ sg_totalAmount s = sumQ (e_amount <$> docs)
  /\ (sg_avgAmount s * of_nat (sg_totalCount s) == sg_totalAmount s)%Q
  /\ (docs = [] -> s = zero_stats).
Proof.
  rewrite group_by_unit. destruct docs as [|d docs]; simpl.
  - repeat split.
  - repeat split; [|done]. unfold avgQ. simpl length.
    assert (0 < of_nat (S (length (e_amount <$> docs))))%Q as Hpos.
    { rewrite of_nat_S.
      assert (0 <= of_nat (length (e_amount <$> docs)))%Q; [|lra].
      unfold of_nat. change 0%Q with (inject_Z 0). rewrite <- Zle_Qle. lia. }
    rewrite length_fmap in *. field. lra.
Qed.





(** ** getExpenses: validation, pages and pagination info *)

Lemma getExpenses_reply Joi_number Joi_date (req : Request) (w : World) :
  (getExpenses Joi_number Joi_date req w).1 =
  match expenseQuerySchema_validate Joi_number Joi_date (req_query req) with
  | inl errors =>
      {| rp_status := 400; rp_success := false; rp_message := "Validation error";
         rp_payload := ValidationErrors errors |}
  | inr v =>
      {| rp_status := 200; rp_success := true;
         rp_message := "Expenses retrieved successfully";
         rp_payload :=
           ExpensesData (expenses_page (req_userId req) v (w_db w))
             (pagination_of v (countDocuments (req_userId req) v (w_db w))) |}
  end.
Proof.
  unfold getExpenses. by destruct (expenseQuerySchema_validate _ _ _).
Qed.

(** What an accepted list query guarantees: page is at least 1 and is 1
    when absent, limit is between 1 and 100 and is 10 when absent, endDate is
    not before startDate when both are given, and the query has no key
    besides page, limit, category, startDate and endDate. *)
Theorem expense_query_accepted (Joi_number : string -> option Q)
    (Joi_date : string -> option Z) (query : gmap string string) (v : ExpenseQuery) :
  expenseQuerySchema_validate Joi_number Joi_date query = inr v ->
  1 <= q_page v
  /\ (query !! "page" = None -> q_page v = 1)
  /\ 1 <= q_limit v <= 100
  /\ (query !! "limit" = None -> q_limit v = 10)
  /\ (forall s e, q_startDate v = Some s -> q_endDate v = Some e -> s <= e)
  /\ (forall k, is_Some (query !! k) -> k ∈ expense_query_keys).
Proof.
  unfold expenseQuerySchema_validate.
  destruct (validate_page _ _) as [?|page] eqn:Hpage; [done|].
  destruct (validate_limit _ _) as [?|limit] eqn:Hlimit; [done|].
  destruct (validate_category _) as [?|category] eqn:Hcat; [done|].
  destruct (validate_startDate _ _) as [?|startDate] eqn:Hstart; [done|].
  destruct (validate_endDate _ _ _) as [?|endDate] eqn:Hend; [done|].
  destruct (filter _ _) as [|k ks] eqn:Hkeys; [|done].
  intros [= <-]. simpl.
  split; [|split; [|split; [|split; [|split]]]].
  - unfold validate_page in Hpage.
    destruct (query !! "page") as [s|]; [|injection Hpage as <-; lia].
    destruct (Joi_number s) as [q|]; [|done]. destruct (negb _); [done|].
    destruct (Qfloor q <? 1) eqn:Hlt; [done|]. apply Z.ltb_ge in Hlt.
    by injection Hpage as <-.
  - intros Hnone. unfold validate_page in Hpage. rewrite Hnone in Hpage.
    by injection Hpage as <-.
  - unfold validate_limit in Hlimit.
    destruct (query !! "limit") as [s|]; [|injection Hlimit as <-; lia].
    destruct (Joi_number s) as [q|]; [|done]. destruct (negb _); [done|].
    destruct (Qfloor q <? 1) eqn:Hlt; [done|]. apply Z.ltb_ge in Hlt.
    destruct (100 <? Qfloor q) eqn:Hgt; [done|]. apply Z.ltb_ge in Hgt.
    injection Hlimit as <-. lia.
  - intros Hnone. unfold validate_limit in Hlimit. rewrite Hnone in Hlimit.
    by injection Hlimit as <-.
  - intros s e -> ->. unfold validate_endDate in Hend.
    destruct (query !! "endDate") as [x|]; [|done]. destruct (Joi_date x) as [t|]; [|done].
    destruct (t <? s) eqn:Hlt; [done|]. apply Z.ltb_ge in Hlt.
    by injection Hend as <-.
  - intros k [x Hx].
    destruct (decide (k ∈ expense_query_keys)) as [|Hnot]; [done|]. exfalso.
    assert (k ∈ filter (fun k => k ∉ expense_query_keys) (map_to_list query).*1) as Hin.
    { apply list_elem_of_filter. split; [done|].
      apply list_elem_of_fmap. exists (k, x). split; [done|]. by apply elem_of_map_to_list. }
    rewrite Hkeys in Hin. by apply not_elem_of_nil in Hin.
Qed.

Lemma expense_query_accepted_witness :
  let v := {| q_page := 2; q_limit := 10; q_category := Some FOOD;
              q_startDate := None; q_endDate := None |} in
  1 <= q_page v /\ 1 <= q_limit v <= 100.
Proof.
  intros v.
  pose proof (expense_query_accepted (fun s => inject_Z <$> parse_decimal s) parse_iso_date
                (query_of [("page", "2"); ("category", "Food")]) v) as H.
  destruct H as (H1 & _ & H2 & _); [vm_compute; reflexivity|]. split; [exact H1|exact H2].
Defined.

Lemma expense_matches_spec userId v e :
  expense_matches userId v e = true <->
  e_userId e = userId
  /\ (forall c, q_category v = Some c -> e_category e = c)
  /\ (forall s, q_startDate v = Some s -> s <= e_date e)
  /\ (forall t, q_endDate v = Some t -> e_date e <= t).
Proof.
  unfold expense_matches. rewrite !andb_true_iff, bool_decide_eq_true.
  destruct (q_category v) as [c|], (q_startDate v) as [s|], (q_endDate v) as [t|];
    rewrite ?bool_decide_eq_true, ?Z.leb_le;
    (split; [intros; repeat split; try (intros ? [= <-]); try done; tauto
            |intros (Hu & Hc & Hs & Ht); repeat split; auto]).
Qed.

Lemma by_date_createdAt_desc_sorted (l : list IExpense) :
  StronglySorted (fun a b => e_date b < e_date a
                             \/ (e_date a = e_date b /\ e_createdAt b <= e_createdAt a))
    (sort_by by_date_createdAt_desc l).
Proof.
  eapply StronglySorted_weaken; [|apply sort_by_sorted].
  - intros a b. unfold by_date_createdAt_desc. lia.
  - intros x y. unfold by_date_createdAt_desc. lia.
  - intros x y z. unfold by_date_createdAt_desc. lia.
Qed.

(** A page of the list endpoint, for a page number and a limit of at least
    1: it has at most limit items; every item is a stored record of the user
    that passes the category and date filters; the items come latest date
    first, and for equal dates latest created first; and totalCount is the
    number of all matching records. *)
Theorem expenses_page_items (userId : string) (v : ExpenseQuery) (db : list IExpense) :
  1 <= q_page v -> 1 <= q_limit v ->
  let items := expenses_page userId v db in
  Z.of_nat (length items) <= q_limit v
  /\ Forall (fun e => e ∈ db /\ e_userId e = userId
                      /\ (forall c, q_category v = Some c -> e_category e = c)
                      /\ (forall s, q_startDate v = Some s -> s <= e_date e)
                      /\ (forall t, q_endDate v = Some t -> e_date e <= t)) items
  /\ StronglySorted (fun a b => e_date b < e_date a
                                \/ (e_date a = e_date b /\ e_createdAt b <= e_createdAt a))
       items
  /\ countDocuments userId v db = length (matching_expenses userId v db).
Proof.
  intros Hpage Hlimit items. unfold items, expenses_page.
  split; [|split; [|split]].
  - rewrite length_take. lia.
  - apply Forall_take, Forall_drop, sort_by_Forall, Forall_forall.
    intros e (Hm & He)%list_elem_of_filter. apply expense_matches_spec in Hm. tauto.
  - pose proof (by_date_createdAt_desc_sorted
                  (filter (fun e => expense_matches userId v e = true) db)) as Hs.
    fold (matching_expenses userId v db) in Hs |- *.
    rewrite <- (take_drop (Z.to_nat ((q_page v - 1) * q_limit v))
                  (matching_expenses userId v db)) in Hs.
    apply StronglySorted_app_1_r in Hs.
    rewrite <- (take_drop (Z.to_nat (q_limit v)) (drop _ _)) in Hs.
    by apply StronglySorted_app_1_l in Hs.
  - unfold countDocuments, matching_expenses. by rewrite sort_by_length.
Qed.

Lemma expenses_page_items_witness :
  let v := {| q_page := 1; q_limit := 10; q_category := None;
              q_startDate := None; q_endDate := None |} in
  Z.of_nat (length (expenses_page "u" v [expense "a" 5 7 FOOD "u"])) <= q_limit v.
Proof.
  intros v. apply (expenses_page_items "u" v [expense "a" 5 7 FOOD "u"]); simpl; lia.
Defined.

Lemma Qceiling_div_bounds (n : nat) (L : Z) :
  1 <= L ->
  let T := Qceiling (of_nat n / inject_Z L) in
  (T - 1) * L < Z.of_nat n <= T * L.
Proof.
  intros HL T.
  assert (0 < inject_Z L)%Q as HLq
    by (change 0%Q with (inject_Z 0); rewrite <- Zlt_Qlt; lia).
  pose proof (Qle_ceiling (of_nat n / inject_Z L)) as H1.
  pose proof (Qceiling_lt (of_nat n / inject_Z L)) as H2. fold T in H1, H2.
  split.
  - rewrite Zlt_Qlt, inject_Z_mult. unfold of_nat in *.
    apply Qlt_shift_div_l in H2 || idtac.
    assert (inject_Z (T - 1) * inject_Z L < inject_Z (Z.of_nat n) / inject_Z L * inject_Z L)%Q
      as H3 by (apply Qmult_lt_compat_r; done).
    assert (inject_Z (Z.of_nat n) / inject_Z L * inject_Z L == inject_Z (Z.of_nat n))%Q as Heq
      by (field; lra).
    by rewrite Heq in H3.
  - rewrite Zle_Qle, inject_Z_mult. unfold of_nat in *.
    assert (inject_Z (Z.of_nat n) / inject_Z L * inject_Z L <= inject_Z T * inject_Z L)%Q
      as H3 by (apply Qmult_le_compat_r; [done|lra]).
    assert (inject_Z (Z.of_nat n) / inject_Z L * inject_Z L == inject_Z (Z.of_nat n))%Q as Heq
      by (field; lra).
    by rewrite Heq in H3.
Qed.

(** The pagination info of a list response, for a page number and a limit
    of at least 1: totalPages is the least number of pages of limit items
    that hold totalCount items; hasNextPage says that items remain after this
    page, hasPrevPage that the page is not the first; and the page holds as
    many items as remain from its offset, up to limit, so it is empty exactly
    when the page number is beyond totalPages. *)
Theorem pagination_info_consistent (userId : string) (v : ExpenseQuery) (db : list IExpense) :
  1 <= q_page v -> 1 <= q_limit v ->
  let n := countDocuments userId v db in
  let info := pagination_of v n in
  let items := expenses_page userId v db in
  (pg_totalPages info - 1) * q_limit v < Z.of_nat n <= pg_totalPages info * q_limit v
  /\ (pg_hasNextPage info = true <-> q_page v * q_limit v < Z.of_nat n)
  /\ (pg_hasPrevPage info = true <-> 1 < q_page v)
  /\ Z.of_nat (length items)
     = Z.max 0 (Z.min (q_limit v) (Z.of_nat n - (q_page v - 1) * q_limit v))
  /\ (items = [] <-> pg_totalPages info < q_page v).
Proof.
  intros Hpage Hlimit n info items.
  pose proof (Qceiling_div_bounds n (q_limit v) Hlimit) as Hb. simpl in Hb.
  assert (Z.of_nat (length items)
          = Z.max 0 (Z.min (q_limit v) (Z.of_nat n - (q_page v - 1) * q_limit v))) as Hlen.
  { unfold items, expenses_page. rewrite length_take, length_drop.
    unfold n, countDocuments, matching_expenses. rewrite sort_by_length. nia. }
  split; [exact Hb|]. split; [|split; [|split; [exact Hlen|]]].
  - unfold info, pagination_of. simpl. rewrite Z.ltb_lt. nia.
  - unfold info, pagination_of. simpl. by rewrite Z.ltb_lt.
  - unfold info, pagination_of. simpl.
    rewrite <- length_zero_iff_nil. split; intros H; nia.
Qed.

Lemma pagination_info_consistent_witness :
  let v := {| q_page := 2; q_limit := 1; q_category := None;
              q_startDate := None; q_endDate := None |} in
  let db := [expense "a" 5 7 FOOD "u"; expense "b" 6 8 FOOD "u"; expense "c" 6 9 FOOD "u"] in
  pg_hasNextPage (pagination_of v (countDocuments "u" v db)) = true
  <-> q_page v * q_limit v < Z.of_nat (countDocuments "u" v db).
Proof.
  intros v db. apply (pagination_info_consistent "u" v db); simpl; lia.
Defined.

Lemma mjoin_chunks {A} (L k : nat) (l : list A) :
  mjoin ((fun i => take L (drop (i * L) l)) <$> seq 0 k) = take (k * L) l.
Proof.
  induction k as [|k IH]; [by rewrite take_0|].
  rewrite seq_S, fmap_app, join_app, IH. simpl. rewrite app_nil_r.
  rewrite take_take_drop. f_equal. lia.
Qed.

(** The pages of a query partition its result: the pages 1 to totalPages,
    one after the other, are exactly the matching expenses in the order of
    the endpoint, without gap or repetition. *)
Theorem expenses_pages_partition (userId : string) (v : ExpenseQuery) (db : list IExpense) :
  1 <= q_limit v ->
  let totalPages := pg_totalPages (pagination_of v (countDocuments userId v db)) in
  mjoin ((fun p => expenses_page userId (with_page v p) db) <$> seqZ 1 totalPages)
  = matching_expenses userId v db.
Proof.
  intros Hlimit totalPages.
  pose proof (Qceiling_div_bounds (countDocuments userId v db) (q_limit v) Hlimit) as Hb.
  simpl in Hb. fold totalPages in Hb. unfold pagination_of in totalPages. simpl in totalPages.
  assert (0 <= totalPages) as Hpos by nia.
  unfold seqZ. rewrite <- list_fmap_compose.
  rewrite (list_fmap_ext _ (fun i => take (Z.to_nat (q_limit v))
                                      (drop (i * Z.to_nat (q_limit v))
                                            (matching_expenses userId v db)))).
  2: { intros _ i _. unfold compose, expenses_page, with_page, matching_expenses. simpl.
       replace (Z.of_nat i + 1 - 1) with (Z.of_nat i) by lia.
       by rewrite Z2Nat.inj_mul, Nat2Z.id by lia. }
  rewrite mjoin_chunks. apply take_ge.
  unfold countDocuments in Hb. unfold matching_expenses. rewrite sort_by_length.
  apply Nat2Z.inj_le. rewrite Nat2Z.inj_mul, !Z2Nat.id by lia.
  subst totalPages. apply Hb.
Qed.

Lemma expenses_pages_partition_witness :
  let v := {| q_page := 1; q_limit := 2; q_category := None;
              q_startDate := None; q_endDate := None |} in
  let db := [expense "a" 5 7 FOOD "u"; expense "b" 6 8 FOOD "u"; expense "c" 6 9 FOOD "u"] in
  mjoin ((fun p => expenses_page "u" (with_page v p) db)
           <$> seqZ 1 (pg_totalPages (pagination_of v (countDocuments "u" v db))))
  = matching_expenses "u" v db.
Proof.
  intros v db. apply (expenses_pages_partition "u" v db). simpl. lia.
Defined.

(** ** getExpenseById and deleteExpense *)

Lemma array_find_Some {A} (P : A -> Prop) `{forall x, Decision (P x)} (l : list A) (x : A) :
  array_find P l = Some x ->
  exists l1 l2, l = l1 ++ x :: l2 /\ P x /\ Forall (fun y => ~ P y) l1.
Proof.
  unfold array_find. intros Hfind.
  apply fmap_Some in Hfind as ([i y] & Hfind & ->). simpl.
  apply list_find_Some in Hfind as (Hi & HP & Hbefore).
  exists (take i l), (drop (S i) l). split; [|split; [done|]].
  - by rewrite <- (take_drop_middle l i y Hi) at 1.
  - apply Forall_forall. intros z Hz.
    apply list_elem_of_lookup in Hz as (j & Hj).
    pose proof (lookup_lt_Some _ _ _ Hj) as Hlt. rewrite length_take in Hlt.
    rewrite lookup_take_lt in Hj by lia. apply (Hbefore j z Hj). lia.
Qed.

Lemma array_find_is_Some {A} (P : A -> Prop) `{forall x, Decision (P x)} (l : list A) :
  is_Some (array_find P l) <-> exists x, x ∈ l /\ P x.
Proof.
  split.
  - intros [x Hx]. apply array_find_Some in Hx as (l1 & l2 & -> & HP & _).
    exists x. split; [|done]. rewrite elem_of_app, elem_of_cons. tauto.
  - intros (x & Hin & HP). destruct (array_find P l) eqn:Hfind; [done|].
    apply array_find_None in Hfind. rewrite Forall_forall in Hfind.
    by destruct (Hfind x Hin).
Qed.

Lemma remove_first_app {A} (P : A -> Prop) `{forall x, Decision (P x)} (l1 l2 : list A) x :
  Forall (fun y => ~ P y) l1 -> P x ->
  remove_first P (l1 ++ x :: l2) = l1 ++ l2.
Proof.
  intros Hl1 HP. induction Hl1 as [|y l1 Hy _ IH]; simpl.
  - by rewrite decide_True.
  - by rewrite decide_False, IH.
Qed.

Lemma remove_first_none {A} (P : A -> Prop) `{forall x, Decision (P x)} (l : list A) :
  Forall (fun y => ~ P y) l -> remove_first P l = l.
Proof.
  intros Hl. induction Hl as [|y l Hy _ IH]; simpl; [done|].
  by rewrite decide_False, IH.
Qed.

Lemma filter_remove_first {A} (P Q : A -> Prop) `{forall x, Decision (P x)}
    `{forall x, Decision (Q x)} (l : list A) :
  (forall x, P x -> ~ Q x) -> filter Q (remove_first P l) = filter Q l.
Proof.
  intros HPQ. induction l as [|y l IH]; simpl; [done|].
  destruct (decide (P y)) as [HP|HP].
  - by rewrite (filter_cons_False Q y l) by by apply HPQ.
  - by rewrite !filter_cons, IH.
Qed.

Lemma expenseStats_own tz currentDate userId db :
  expenseStats tz currentDate userId (match_user userId db)
  = expenseStats tz currentDate userId db.
Proof.
  unfold expenseStats, currentMonthStats, totalStats.
  by rewrite match_category_own, match_user_idem.
Qed.

Section ExpenseById.

Variable ObjectId_isValid : string -> bool.
Variable ObjectId_of : string -> string.

Lemma deleteExpense_run (req : IdRequest) (w : World) :
  ObjectId_isValid (ir_id req) = true ->
  deleteExpense ObjectId_isValid ObjectId_of req w =
  (match array_find (owned ObjectId_of req) (w_db w) with
   | None => {| rp_status := 404; rp_success := false;
                rp_message := "Expense not found"; rp_payload := NoPayload |}
   | Some expense => {| rp_status := 200; rp_success := true;
                        rp_message := "Expense deleted successfully";
                        rp_payload := ExpenseData expense |}
   end,
   {| w_db := remove_first (owned ObjectId_of req) (w_db w); w_tz := w_tz w; w_clock := w_clock w;
      w_ticks := w_ticks w; w_log := w_log w ++ ["Expense.findOneAndDelete"] |}).
Proof.
  intros Hvalid. unfold deleteExpense. rewrite Hvalid. simpl.
  unfold bind, Expense_findOneAndDelete.
  by destruct (array_find _ (w_db w)).
Qed.

Lemma getExpenseById_run (req : IdRequest) (w : World) :
  ObjectId_isValid (ir_id req) = true ->
  (getExpenseById ObjectId_isValid ObjectId_of req w).1 =
  match array_find (owned ObjectId_of req) (w_db w) with
  | None => {| rp_status := 404; rp_success := false;
               rp_message := "Expense not found"; rp_payload := NoPayload |}
  | Some expense => {| rp_status := 200; rp_success := true;
                       rp_message := "Expense retrieved successfully";
                       rp_payload := ExpenseData expense |}
  end.
Proof.
  intros Hvalid. unfold getExpenseById. rewrite Hvalid. simpl.
  unfold bind, Expense_findOne, store_call.
  by destruct (array_find _ (w_db w)).
Qed.

Lemma getExpenseById_db (req : IdRequest) (w : World) :
  w_db (getExpenseById ObjectId_isValid ObjectId_of req w).2 = w_db w.
Proof.
  unfold getExpenseById. destruct (ObjectId_isValid (ir_id req)); simpl; [|done].
  unfold bind, Expense_findOne, store_call.
  by destruct (array_find _ (w_db w)).
Qed.

Lemma deleteExpense_others (req : IdRequest) (w : World) (u : string) :
  u <> ir_userId req ->
  match_user u (w_db (deleteExpense ObjectId_isValid ObjectId_of req w).2)
  = match_user u (w_db w).
Proof.
  intros Hu. destruct (ObjectId_isValid (ir_id req)) eqn:Hvalid.
  - rewrite deleteExpense_run by done. simpl.
    unfold match_user. apply filter_remove_first. intros e [_ He] He'. congruence.
  - unfold deleteExpense. rewrite Hvalid. by simpl.
Qed.

(** getExpenseById answers 200 exactly when the id is valid and the
    requester owns a stored expense with that id, and then returns such an
    expense; an invalid id gives 400 without a call to the store; every
    other request gives the same 404, whether the id is unknown or belongs
    to an expense of another user.  The records are never changed. *)
Theorem expense_by_id_owner (req : IdRequest) (w : World) :
  let r := (getExpenseById ObjectId_isValid ObjectId_of req w).1 in
  let w' := (getExpenseById ObjectId_isValid ObjectId_of req w).2 in
  let not_found := {| rp_status := 404; rp_success := false;
                      rp_message := "Expense not found"; rp_payload := NoPayload |} in
  w_db w' = w_db w
  /\ (ObjectId_isValid (ir_id req) = false -> rp_status r = 400 /\ w' = w)
  /\ (rp_status r = 200 <->
      ObjectId_isValid (ir_id req) = true
      /\ exists e, e ∈ w_db w /\ e_id e = ObjectId_of (ir_id req)
                   /\ e_userId e = ir_userId req)
  /\ (rp_status r = 200 ->
      exists e, rp_payload r = ExpenseData e /\ e ∈ w_db w
                /\ e_id e = ObjectId_of (ir_id req) /\ e_userId e = ir_userId req)
  /\ (ObjectId_isValid (ir_id req) = true -> rp_status r <> 200 -> r = not_found)
  /\ r = (getExpenseById ObjectId_isValid ObjectId_of req
            (with_db (match_user (ir_userId req) (w_db w)) w)).1.
Proof.
  intros r w' not_found.
  destruct (ObjectId_isValid (ir_id req)) eqn:Hvalid.
  - pose proof (getExpenseById_run req w Hvalid) as Hr. fold r in Hr.
    pose proof (array_find_is_Some (owned ObjectId_of req) (w_db w)) as Hsome.
    split; [|split; [done|]].
    { subst w'. unfold getExpenseById. rewrite Hvalid. simpl.
      unfold bind, Expense_findOne, store_call.
      by destruct (array_find _ (w_db w)). }
    destruct (array_find (owned ObjectId_of req) (w_db w)) as [e|] eqn:Hfind.
    + pose proof Hfind as (l1 & l2 & Hdb & [Hid Hu] & Hl1)%array_find_Some.
      assert (e ∈ w_db w) as Hin by (rewrite Hdb, elem_of_app, elem_of_cons; tauto).
      split; [|split; [|split]].
      * rewrite Hr. simpl. split; [|done]. intros _. split; [done|]. by exists e.
      * intros _. exists e. by rewrite Hr.
      * rewrite Hr. simpl. done.
      * rewrite Hr, getExpenseById_run by done. simpl.
        replace (array_find (owned ObjectId_of req) (match_user (ir_userId req) (w_db w)))
          with (Some e); [done|].
        symmetry. rewrite Hdb. unfold match_user. rewrite filter_app.
        rewrite filter_cons_True by done.
        unfold array_find.
        assert (forall l1' : list IExpense,
                  Forall (fun y => ~ owned ObjectId_of req y) l1' ->
                  forall l2', snd <$> list_find (owned ObjectId_of req) (l1' ++ e :: l2')
                              = Some e) as Hgen.
        { intros l1' Hl1' l2'. induction Hl1' as [|y l1' Hy _ IH]; simpl.
          - by rewrite decide_True.
          - rewrite decide_False by done. rewrite <- IH.
            by destruct (list_find (owned ObjectId_of req) (l1' ++ e :: l2')) as [[??]|]. }
        apply Hgen. apply Forall_forall. intros y [_ Hy]%list_elem_of_filter.
        rewrite Forall_forall in Hl1. by apply Hl1.
    + split; [|split; [|split]].
      * rewrite Hr. simpl. split; [done|]. intros [_ Hex].
        apply Hsome in Hex. by destruct Hex.
      * by rewrite Hr.
      * by rewrite Hr.
      * rewrite Hr, getExpenseById_run by done. simpl.
        replace (array_find (owned ObjectId_of req) (match_user (ir_userId req) (w_db w)))
          with (@None IExpense); [done|].
        symmetry. apply array_find_None. apply array_find_None in Hfind.
        apply Forall_forall. intros y [_ Hy]%list_elem_of_filter.
        rewrite Forall_forall in Hfind. by apply Hfind.
  - subst r w'. unfold getExpenseById. rewrite Hvalid. simpl.
    split; [done|]. split; [done|]. split; [|split; [done|split; [done|done]]].
    split; [done|]. by intros [? _].
Qed.

(** deleteExpense removes at most one record, and only one of the
    requester with the requested id: on 200 the store is the old one without
    the first such record, which is the one returned; on every other answer
    the store is unchanged. *)
Theorem delete_expense_effect (req : IdRequest) (w : World) :
  let r := (deleteExpense ObjectId_isValid ObjectId_of req w).1 in
  let w' := (deleteExpense ObjectId_isValid ObjectId_of req w).2 in
  (rp_status r = 200
   /\ exists l1 e l2,
        w_db w = l1 ++ e :: l2 /\ w_db w' = l1 ++ l2
        /\ rp_payload r = ExpenseData e
        /\ e_id e = ObjectId_of (ir_id req) /\ e_userId e = ir_userId req
        /\ Forall (fun y => ~ (e_id y = ObjectId_of (ir_id req)
                               /\ e_userId y = ir_userId req)) l1)
  \/ (rp_status r = 400 /\ ObjectId_isValid (ir_id req) = false /\ w' = w)
  \/ (rp_status r = 404 /\ ObjectId_isValid (ir_id req) = true /\ w_db w' = w_db w
      /\ Forall (fun y => ~ (e_id y = ObjectId_of (ir_id req)
                             /\ e_userId y = ir_userId req)) (w_db w)).
Proof.
  intros r w'.
  destruct (ObjectId_isValid (ir_id req)) eqn:Hvalid.
  - pose proof (deleteExpense_run req w Hvalid) as Hrun.
    assert (r = (deleteExpense ObjectId_isValid ObjectId_of req w).1) as Hr by done.
    assert (w' = (deleteExpense ObjectId_isValid ObjectId_of req w).2) as Hw by done.
    rewrite Hrun in Hr, Hw. simpl in Hr, Hw.
    destruct (array_find (owned ObjectId_of req) (w_db w)) as [e|] eqn:Hfind.
    + left. pose proof Hfind as (l1 & l2 & Hdb & [Hid Hu] & Hl1)%array_find_Some.
      split; [by rewrite Hr|]. exists l1, e, l2.
      split; [done|]. split.
      { rewrite Hw. simpl. rewrite Hdb. by apply remove_first_app. }
      by rewrite Hr.
    + right. right. apply array_find_None in Hfind.
      split; [by rewrite Hr|]. split; [done|]. split; [|done].
      rewrite Hw. simpl. by apply remove_first_none.
  - right. left. subst r w'. unfold deleteExpense. rewrite Hvalid. by simpl.
Qed.

(** What a deletion by one user leaves untouched: the records of every
    other user, and with them every report and the statistics of every other
    user, whatever the deleting request was. *)
Theorem delete_expense_isolation (Joi_date parseInt : string -> option Z)
    (req : IdRequest) (other : Request) (w : World) :
  req_userId other <> ir_userId req ->
  let w' := (deleteExpense ObjectId_isValid ObjectId_of req w).2 in
  match_user (req_userId other) (w_db w') = match_user (req_userId other) (w_db w)
  /\ response_of (getCategoryReport Joi_date other) w'
     = response_of (getCategoryReport Joi_date other) w
  /\ response_of (getMonthlyReport parseInt other) w'
     = response_of (getMonthlyReport parseInt other) w
  /\ response_of (getExpenseTrends parseInt other) w'
     = response_of (getExpenseTrends parseInt other) w
  /\ response_of (getExpenseSummary other) w'
     = response_of (getExpenseSummary other) w
  /\ (getExpenseStats other w').1 = (getExpenseStats other w).1.
Proof.
  intros Hother w'.
  assert (w_tz w' = w_tz w /\ w_clock w' = w_clock w /\ w_ticks w' = w_ticks w
          /\ match_user (req_userId other) (w_db w')
             = match_user (req_userId other) (w_db w)) as (Htz & Hclock & Hticks & Hown).
  { subst w'. destruct (ObjectId_isValid (ir_id req)) eqn:Hvalid.
    - rewrite deleteExpense_run by done. simpl. repeat split.
      unfold match_user. apply filter_remove_first. intros e [_ He] He'. congruence.
    - unfold deleteExpense. rewrite Hvalid. by simpl. }
  split; [done|]. split; [|split; [|split; [|split]]].
  - rewrite !getCategoryReport_response.
    destruct (reportQuerySchema_validate _ _) as [errs|[s e]]; [done|].
    by rewrite <- (categoryReport_own _ _ _ (w_db w')), Hown, categoryReport_own.
  - rewrite !getMonthlyReport_response, Htz, Hclock, Hticks.
    by rewrite <- (monthlyReport_own _ _ _ (w_db w')), Hown, monthlyReport_own.
  - rewrite !getExpenseTrends_response, Htz, Hclock, Hticks.
    by rewrite <- (trendReport_own _ _ _ _ _ (w_db w')), Hown, trendReport_own.
  - rewrite !getExpenseSummary_response, Htz, Hclock, Hticks.
    by rewrite <- (summaryReport_own _ _ _ _ _ _ (w_db w')), Hown, summaryReport_own.
  - rewrite !getExpenseStats_reply, Htz, Hclock, Hticks.
    by rewrite <- (expenseStats_own _ _ _ (w_db w')), Hown, expenseStats_own.
Qed.

(** With unique ids in the store, an expense that was deleted is gone:
    after a deletion answered 200, looking the same id up and deleting it
    again both answer 404. *)
Theorem delete_expense_then_not_found (req : IdRequest) (w : World) :
  NoDup (e_id <$> w_db w) ->
  rp_status (deleteExpense ObjectId_isValid ObjectId_of req w).1 = 200 ->
  let w' := (deleteExpense ObjectId_isValid ObjectId_of req w).2 in
  rp_status (getExpenseById ObjectId_isValid ObjectId_of req w').1 = 404
  /\ rp_status (deleteExpense ObjectId_isValid ObjectId_of req w').1 = 404
  /\ length (w_db w') = pred (length (w_db w)).
Proof.
  intros Hnodup H200 w'.
  destruct (ObjectId_isValid (ir_id req)) eqn:Hvalid.
  2: { unfold deleteExpense in H200. rewrite Hvalid in H200. by simpl in H200. }
  pose proof (deleteExpense_run req w Hvalid) as Hrun.
  assert (w' = (deleteExpense ObjectId_isValid ObjectId_of req w).2) as Hw by done.
  rewrite Hrun in H200, Hw. simpl in H200, Hw.
  destruct (array_find (owned ObjectId_of req) (w_db w)) as [e|] eqn:Hfind; [|done].
  apply array_find_Some in Hfind as (l1 & l2 & Hdb & [Hid Hu] & Hl1).
  assert (w_db w' = l1 ++ l2) as Hdb'
    by (rewrite Hw; simpl; rewrite Hdb; by apply remove_first_app).
  assert (array_find (owned ObjectId_of req) (w_db w') = None) as Hnone.
  { apply array_find_None. rewrite Hdb'. apply Forall_forall. intros y Hy [Hyid _].
    rewrite Hdb, fmap_app, fmap_cons in Hnodup.
    apply NoDup_app in Hnodup as (_ & Hdisj & Hl2).
    apply NoDup_cons in Hl2 as [Hnotin _].
    apply elem_of_app in Hy as [Hy|Hy].
    - apply (Hdisj (e_id y)); [by apply list_elem_of_fmap_2|].
      rewrite Hyid, <- Hid. rewrite elem_of_cons. by left.
    - apply Hnotin. rewrite Hid, <- Hyid. by apply list_elem_of_fmap_2. }
  split; [|split].
  - by rewrite getExpenseById_run, Hnone.
  - by rewrite deleteExpense_run, Hnone.
  - rewrite Hdb', Hdb, !length_app. simpl. lia.
Qed.

End ExpenseById.

Lemma delete_expense_isolation_witness :
  let req := {| ir_userId := "u"; ir_id := "64b0f1a2c3d4e5f601234567" |} in
  let other := {| req_userId := "v"; req_query := query_of [] |} in
  let w := world [expense "64b0f1a2c3d4e5f601234567" 5 7 FOOD "u";
                  expense "64b0f1a2c3d4e5f601234568" 6 8 FOOD "v"] 0 0 in
  let w' := (deleteExpense hex24 (fun s => s) req w).2 in
  match_user (req_userId other) (w_db w') = match_user (req_userId other) (w_db w)
  /\ response_of (getCategoryReport parse_iso_date other) w'
     = response_of (getCategoryReport parse_iso_date other) w
  /\ response_of (getMonthlyReport parse_decimal other) w'
     = response_of (getMonthlyReport parse_decimal other) w
  /\ response_of (getExpenseTrends parse_decimal other) w'
     = response_of (getExpenseTrends parse_decimal other) w
  /\ response_of (getExpenseSummary other) w'
     = response_of (getExpenseSummary other) w
  /\ (getExpenseStats other w').1 = (getExpenseStats other w).1.
Proof.
  intros req other w.
  apply (delete_expense_isolation hex24 (fun s => s) parse_iso_date parse_decimal
           req other w).
  simpl. discriminate.
Defined.

Lemma delete_expense_then_not_found_witness :
  let req := {| ir_userId := "u"; ir_id := "64b0f1a2c3d4e5f601234567" |} in
  let w := world [expense "64b0f1a2c3d4e5f601234567" 5 7 FOOD "u";
                  expense "64b0f1a2c3d4e5f601234568" 6 8 FOOD "v"] 0 0 in
  let w' := (deleteExpense hex24 (fun s => s) req w).2 in
  rp_status (getExpenseById hex24 (fun s => s) req w').1 = 404
  /\ rp_status (deleteExpense hex24 (fun s => s) req w').1 = 404
  /\ length (w_db w') = pred (length (w_db w)).
Proof.
  intros req w.
  apply (delete_expense_then_not_found hex24 (fun s => s) req w).
  - apply (bool_decide_unpack _). vm_compute. reflexivity.
  - vm_compute. reflexivity.
Defined.

(** ** authenticate and the report router *)

Lemma substring_all (s : string) : String.substring 0 (String.length s) s = s.
Proof. induction s as [|c s IH]; simpl; [done|]. by rewrite IH. Qed.

(** [startsWith] and [substring]: a string with prefix [p] is [p] followed
    by its substring from the length of [p] on. *)
Lemma prefix_substring (p h : string) :
  String.prefix p h = true ->
  h = p +:+ String.substring (String.length p) (String.length h - String.length p) h.
Proof.
  revert h. induction p as [|a p IH]; intros h.
  - intros _. simpl. by rewrite Nat.sub_0_r, substring_all.
  - destruct h as [|b h]; [done|]. simpl.
    destruct (ascii_dec a b) as [->|]; [|done].
    intros Hp. by rewrite (IH h Hp) at 1.
Qed.

Lemma prefix_app (p t : string) : String.prefix p (p +:+ t) = true.
Proof.
  induction p as [|a p IH]; simpl; [by destruct t|]. by destruct (ascii_dec a a).
Qed.

Lemma substring_app (p t : string) :
  String.substring (String.length p) (String.length (p +:+ t) - String.length p) (p +:+ t) = t.
Proof.
  induction p as [|a p IH]; simpl.
  - by rewrite Nat.sub_0_r, substring_all.
  - exact IH.
Qed.

Section AuthenticateProperties.

Variable jwt_verify : string -> option JWTPayload.
Variable User_findById : string -> string + option UserDoc.

Lemma authenticate_inr (authHeader : option string) (user : UserDoc) (userId : string) :
  authenticate jwt_verify User_findById authHeader = inr (user, userId) <->
  exists token payload,
    authHeader = Some ("Bearer " +:+ token) /\ token <> ""
    /\ jwt_verify token = Some payload /\ userId = jwt_userId payload
    /\ User_findById userId = inr (Some user).
Proof.
  unfold authenticate, verifyToken. split.
  - destruct authHeader as [h|]; [|done].
    destruct (String.prefix "Bearer " h) eqn:Hp; [|done]. simpl negb. cbv iota.
    apply prefix_substring in Hp. change (String.length "Bearer ") with 7%nat in Hp.
    set (token := String.substring 7 (String.length h - 7) h) in *.
    case_bool_decide as Htok; [done|].
    destruct (jwt_verify token) as [payload|] eqn:Hv; [|done].
    destruct (User_findById (jwt_userId payload)) as [msg|[u|]] eqn:Hu; [done| |done].
    intros [= -> <-]. exists token, payload. by rewrite Hp at 1.
  - intros (token & payload & -> & Htok & Hv & -> & Hu).
    rewrite (prefix_app "Bearer " token). simpl negb. cbv iota.
    pose proof (substring_app "Bearer " token) as Hs.
    change (String.length "Bearer ") with 7%nat in Hs. rewrite Hs.
    rewrite bool_decide_false by done. by rewrite Hv, Hu.
Qed.

Lemma authenticate_inl (authHeader : option string) (r : Reply) :
  authenticate jwt_verify User_findById authHeader = inl r ->
  rp_status r = 401 /\ rp_success r = false.
Proof.
  unfold authenticate, verifyToken.
  destruct authHeader as [h|]; [|by intros [= <-]].
  destruct (negb _); [by intros [= <-]|].
  case_bool_decide; [by intros [= <-]|].
  destruct (jwt_verify _) as [payload|]; [|by intros [= <-]].
  destruct (User_findById _) as [msg|[u|]]; [by intros [= <-]|done|by intros [= <-]].
Qed.

(** authenticate lets a request through exactly when its Authorization
    header is Bearer followed by a non-empty token that verifies and whose
    user still exists; the request then carries that user and the userId of
    the token.  Every other request is answered 401 with success false. *)
Theorem authenticate_accepts (authHeader : option string) :
  (forall user userId,
     authenticate jwt_verify User_findById authHeader = inr (user, userId) <->
     exists token payload,
       authHeader = Some ("Bearer " +:+ token) /\ token <> ""
       /\ jwt_verify token = Some payload /\ userId = jwt_userId payload
       /\ User_findById userId = inr (Some user))
  /\ (forall r,
        authenticate jwt_verify User_findById authHeader = inl r ->
        rp_status r = 401 /\ rp_success r = false).
Proof.
  split; [intros user userId; apply authenticate_inr|intros r; apply authenticate_inl].
Qed.

End AuthenticateProperties.

Lemma getExpenseStats_world (req : Request) (w : World) :
  w_db (getExpenseStats req w).2 = w_db w.
Proof. reflexivity. Qed.

Lemma getExpenses_world Joi_number Joi_date (req : Request) (w : World) :
  w_db (getExpenses Joi_number Joi_date req w).2 = w_db w.
Proof. unfold getExpenses. by destruct (expenseQuerySchema_validate _ _ _). Qed.

Lemma bind_ret_Some {A B} (m : M A) (f : A -> B) (w : World) :
  (r <- m;; ret (Some (f r))) w = (Some (f (m w).1), (m w).2).
Proof. unfold bind, ret. by destruct (m w). Qed.

Section RouterProperties.

Variable jwt_verify : string -> option JWTPayload.
Variable User_findById : string -> string + option UserDoc.
Variable matches : string -> string -> bool.
Variable params_id : string.
Variable Joi_number : string -> option Q.
Variable Joi_date : string -> option Z.
Variable parseInt : string -> option Z.
Variable ObjectId_isValid : string -> bool.
Variable ObjectId_of : string -> string.
Variable createExpense : string -> M Reply.
Variable updateExpense : string -> M Reply.

(** Every request to the report router passes authenticate first: one it
    rejects gets its 401 reply, whatever the route, and the world (records,
    clock, store-call log) is untouched; one it lets through is answered by
    the handler of the first matching route, run for the userId of the
    token, so the answer is the same as over that user's own records only,
    and the records are unchanged; without a matching route nothing is
    done. *)
Theorem reports_router_protected (authHeader : option string)
    (query : gmap string string) (w : World) :
  let router := reports_router jwt_verify User_findById matches Joi_date parseInt in
  let out := router authHeader query w in
  (forall r, authenticate jwt_verify User_findById authHeader = inl r ->
     out = (Some (inl r), w) /\ rp_status r = 401)
  /\ (forall user userId,
        authenticate jwt_verify User_findById authHeader = inr (user, userId) ->
        let req := {| req_userId := userId; req_query := query |} in
        w_db out.2 = w_db w
        /\ out.1 = (router authHeader query (with_db (match_user userId (w_db w)) w)).1
        /\ (matches "GET" "/category" = true ->
            out.1 = Some (inr (response_of (getCategoryReport Joi_date req) w)))
        /\ (matches "GET" "/category" = false -> matches "GET" "/monthly" = true ->
            out.1 = Some (inr (response_of (getMonthlyReport parseInt req) w)))
        /\ (matches "GET" "/category" = false -> matches "GET" "/monthly" = false ->
            matches "GET" "/trends" = true ->
            out.1 = Some (inr (response_of (getExpenseTrends parseInt req) w)))
        /\ (matches "GET" "/category" = false -> matches "GET" "/monthly" = false ->
            matches "GET" "/trends" = false -> matches "GET" "/summary" = true ->
            out.1 = Some (inr (response_of (getExpenseSummary req) w)))
        /\ (matches "GET" "/category" = false -> matches "GET" "/monthly" = false ->
            matches "GET" "/trends" = false -> matches "GET" "/summary" = false ->
            out = (None, w))).
Proof.
  intros router out. subst out router. unfold reports_router. split.
  - intros r Hauth. rewrite Hauth. split; [done|]. by apply authenticate_inl in Hauth as [? _].
  - intros user userId Hauth. rewrite Hauth.
    set (req := {| req_userId := userId; req_query := query |}).
    destruct (matches "GET" "/category") eqn:H1;
      [|destruct (matches "GET" "/monthly") eqn:H2;
        [|destruct (matches "GET" "/trends") eqn:H3;
          [|destruct (matches "GET" "/summary") eqn:H4]]];
      rewrite ?(bind_ret_Some _ inr); cbn [fst snd].
    + split; [apply getCategoryReport_world|]. split; [|done].
      f_equal. f_equal. fold (response_of (getCategoryReport Joi_date req) w).
      fold (response_of (getCategoryReport Joi_date req)
              (with_db (match_user userId (w_db w)) w)).
      rewrite !getCategoryReport_response. simpl.
      destruct (reportQuerySchema_validate _ _) as [errs|[s e]]; [done|].
      by rewrite categoryReport_own.
    + split; [apply getMonthlyReport_world|]. split; [|done].
      f_equal. f_equal. fold (response_of (getMonthlyReport parseInt req) w).
      fold (response_of (getMonthlyReport parseInt req)
              (with_db (match_user userId (w_db w)) w)).
      rewrite !getMonthlyReport_response. simpl. by rewrite monthlyReport_own.
    + split; [apply getExpenseTrends_world|]. split; [|done].
      f_equal. f_equal. fold (response_of (getExpenseTrends parseInt req) w).
      fold (response_of (getExpenseTrends parseInt req)
              (with_db (match_user userId (w_db w)) w)).
      rewrite !getExpenseTrends_response. simpl. by rewrite trendReport_own.
    + split; [apply getExpenseSummary_world|]. split; [|done].
      f_equal. f_equal. fold (response_of (getExpenseSummary req) w).
      fold (response_of (getExpenseSummary req)
              (with_db (match_user userId (w_db w)) w)).
      rewrite !getExpenseSummary_response. simpl. by rewrite summaryReport_own.
    + done.
Qed.

(** Every request to the expense router passes authenticate first: one it
    rejects gets its 401 reply and the world is untouched.  For a request it
    lets through, GET /stats is answered by getExpenseStats (the route stands
    before GET /:id, so stats is never taken for an id); and unless the
    request is routed to createExpense or updateExpense, the records of
    every user other than the one of the token are left as they were. *)
Theorem expenses_router_protected (authHeader : option string)
    (query : gmap string string) (w : World) :
  let out := expenses_router jwt_verify User_findById matches params_id Joi_number
               Joi_date ObjectId_isValid ObjectId_of createExpense updateExpense
               authHeader query w in
  (forall r, authenticate jwt_verify User_findById authHeader = inl r ->
     out = (Some r, w) /\ rp_status r = 401)
  /\ (forall user userId,
        authenticate jwt_verify User_findById authHeader = inr (user, userId) ->
        (matches "GET" "/stats" = true ->
         out.1 = Some (getExpenseStats {| req_userId := userId; req_query := query |} w).1)
        /\ (matches "POST" "/" = false -> matches "PUT" "/:id" = false ->
            forall u, u <> userId -> match_user u (w_db out.2) = match_user u (w_db w))).
Proof.
  intros out. subst out. unfold expenses_router. split.
  - intros r Hauth. rewrite Hauth. split; [done|]. by apply authenticate_inl in Hauth as [? _].
  - intros user userId Hauth. rewrite Hauth. split.
    + intros ->. by rewrite (bind_ret_Some _ (fun r => r)).
    + intros Hpost Hput u Hu. rewrite Hpost, Hput.
      destruct (matches "GET" "/stats"); [by rewrite (bind_ret_Some _ (fun r => r))|].
      destruct (matches "GET" "/").
      { rewrite (bind_ret_Some _ (fun r => r)). cbn [snd]. by rewrite getExpenses_world. }
      destruct (matches "GET" "/:id").
      { rewrite (bind_ret_Some _ (fun r => r)). cbn [snd].
        pose proof (getExpenseById_db ObjectId_isValid ObjectId_of
                      {| ir_userId := userId; ir_id := params_id |} w) as Hdb.
        by rewrite Hdb. }
      destruct (matches "DELETE" "/:id"); [|done].
      rewrite (bind_ret_Some _ (fun r => r)). cbn [snd].
      by apply (deleteExpense_others ObjectId_isValid ObjectId_of
                  {| ir_userId := userId; ir_id := params_id |}).
Qed.

End RouterProperties.

(** ** getCategoryReport: which queries are accepted *)

Lemma unknown_keys_nil (query : gmap string string) :
  unknown_keys query = [] <->
  forall k, is_Some (query !! k) -> k = "startDate" \/ k = "endDate".
Proof.
  unfold unknown_keys. split.
  - intros Hnil k [x Hx].
    destruct (decide (k = "startDate")) as [|H1]; [by left|].
    destruct (decide (k = "endDate")) as [|H2]; [by right|]. exfalso.
    assert (k ∈ filter (fun k => k <> "startDate" /\ k <> "endDate")
                  (map_to_list query).*1) as Hin.
    { apply list_elem_of_filter. split; [done|].
      apply list_elem_of_fmap. exists (k, x). split; [done|]. by apply elem_of_map_to_list. }
    rewrite Hnil in Hin. by apply not_elem_of_nil in Hin.
  - intros Hkeys. apply list_filter_nil_iff || idtac.
    destruct (filter _ _) as [|k ks] eqn:Hf; [done|]. exfalso.
    assert (k ∈ filter (fun k => k <> "startDate" /\ k <> "endDate")
                  (map_to_list query).*1) as Hin
      by (rewrite Hf, elem_of_cons; by left).
    apply list_elem_of_filter in Hin as [[H1 H2] Hin].
    apply list_elem_of_fmap in Hin as ([k' x] & -> & Hin).
    apply elem_of_map_to_list in Hin.
    destruct (Hkeys k') as [?|?]; [by exists x|done|done].
Qed.

Lemma reportQuerySchema_validate_inr (Joi_date : string -> option Z)
    (query : gmap string string) (s e : Z) :
  reportQuerySchema_validate Joi_date query = inr (s, e) <->
  exists rs re,
    query = {[ "startDate" := rs; "endDate" := re ]}
    /\ Joi_date rs = Some s /\ Joi_date re = Some e /\ s <= e.
Proof.
  unfold reportQuerySchema_validate. split.
  - destruct (query !! "startDate") as [rs|] eqn:Hrs; [|done].
    destruct (Joi_date rs) as [s'|] eqn:Hs; [|done].
    destruct (query !! "endDate") as [re|] eqn:Hre; [|done].
    destruct (Joi_date re) as [e'|] eqn:He; [|done].
    destruct (e' <? s') eqn:Hlt; [done|]. apply Z.ltb_ge in Hlt.
    destruct (unknown_keys query) as [|k ks] eqn:Hkeys; [|done].
    intros [= <- <-]. exists rs, re. split; [|done].
    apply map_eq. intros k.
    destruct (decide (k = "startDate")) as [->|H1].
    { by rewrite Hrs, lookup_insert_eq. }
    rewrite lookup_insert_ne by done.
    destruct (decide (k = "endDate")) as [->|H2].
    { by rewrite Hre, lookup_singleton_eq. }
    rewrite lookup_singleton_ne by done.
    destruct (query !! k) as [x|] eqn:Hk; [|done].
    destruct (proj1 (unknown_keys_nil query) Hkeys k) as [?|?]; [by exists x|done|done].
  - intros (rs & re & -> & Hs & He & Hle).
    rewrite lookup_insert_eq, Hs.
    rewrite lookup_insert_ne, lookup_singleton_eq, He by done.
    destruct (e <? s) eqn:Hlt; [apply Z.ltb_lt in Hlt; lia|].
    replace (unknown_keys _) with (@nil string); [done|].
    symmetry. apply unknown_keys_nil. intros k [x Hx].
    destruct (decide (k = "startDate")) as [|H1]; [by left|].
    destruct (decide (k = "endDate")) as [|H2]; [by right|].
    rewrite lookup_insert_ne, lookup_singleton_ne in Hx by done. done.
Qed.

(** getCategoryReport answers 200 exactly when the query consists of a
    startDate and an endDate that both parse, with endDate not before
    startDate, and of nothing else.  It then makes one aggregate call and the
    dateRange of the report echoes the two dates.  Every other query is
    answered 400 with one validation message. *)
Theorem category_report_accepted (Joi_date : string -> option Z) (req : Request) (w : World) :
  let res := response_of (getCategoryReport Joi_date req) w in
  (res_status res = 200 <->
   exists rs re s e,
     req_query req = {[ "startDate" := rs; "endDate" := re ]}
     /\ Joi_date rs = Some s /\ Joi_date re = Some e /\ s <= e)
  /\ (forall rs re s e,
        req_query req = {[ "startDate" := rs; "endDate" := re ]} ->
        Joi_date rs = Some s -> Joi_date re = Some e -> s <= e ->
        store_calls (getCategoryReport Joi_date req) w = ["Expense.aggregate"]
        /\ exists data, res_body res = CategoryData data /\ cr_dateRange data = (s, e))
  /\ (res_status res <> 200 ->
      res_status res = 400 /\ res_success res = false
      /\ exists message, res_body res = Errors [message]).
Proof.
  intros res. subst res. rewrite getCategoryReport_response.
  pose proof (reportQuerySchema_validate_inr Joi_date (req_query req)) as Hiff.
  split; [|split].
  - destruct (reportQuerySchema_validate _ _) as [errs|[s e]] eqn:Hv; simpl.
    + split; [done|]. intros (rs & re & s & e & Hq).
      assert (@inl (list string) (Z * Z) errs = inr (s, e)) as Hv'
        by (apply Hiff; eauto).
      done.
    + split; [|done]. intros _. destruct (proj1 (Hiff s e) eq_refl) as (rs & re & Hq).
      by exists rs, re, s, e.
  - intros rs re s e Hq Hs He Hle.
    assert (reportQuerySchema_validate Joi_date (req_query req) = inr (s, e)) as Hv
      by (apply Hiff; eauto 10).
    rewrite Hv. split.
    + unfold store_calls, getCategoryReport. rewrite Hv. simpl.
      by rewrite drop_app_length.
    + by eexists.
  - unfold reportQuerySchema_validate.
    destruct (req_query req !! "startDate") as [rs|]; [|intros _; simpl; eauto].
    destruct (Joi_date rs) as [s|]; [|intros _; simpl; eauto].
    destruct (req_query req !! "endDate") as [re|]; [|intros _; simpl; eauto].
    destruct (Joi_date re) as [e|]; [|intros _; simpl; eauto].
    destruct (e <? s); [intros _; simpl; eauto|].
    destruct (unknown_keys _) as [|k ks]; [done|intros _; simpl; eauto].
Qed.

(** ** A deletion in the statistics of its owner *)

Lemma sumQ_app (l1 l2 : list Q) : (sumQ (l1 ++ l2) == sumQ l1 + sumQ l2)%Q.
Proof.
  induction l1 as [|x l1 IH]; simpl app.
  - unfold sumQ at 2. simpl. lra.
  - rewrite !sumQ_cons, IH. lra.
Qed.

(** A deletion answered with an expense shows in the statistics of its
    owner: the all-time count goes down by one and the all-time total by the
    amount of the deleted expense. *)
Theorem delete_expense_stats (ObjectId_isValid : string -> bool)
    (ObjectId_of : string -> string) (req : IdRequest) (w : World) (e : IExpense)
    (currentDate : Z) :
  rp_payload (deleteExpense ObjectId_isValid ObjectId_of req w).1 = ExpenseData e ->
  let w' := (deleteExpense ObjectId_isValid ObjectId_of req w).2 in
  let before := (expenseStats (w_tz w) currentDate (ir_userId req) (w_db w)).2 in
  let after := (expenseStats (w_tz w') currentDate (ir_userId req) (w_db w')).2 in
  sg_totalCount before = S (sg_totalCount after)
  /\ (sg_totalAmount before == sg_totalAmount after + e_amount e)%Q
  /\ e ∈ w_db w /\ e_userId e = ir_userId req.
Proof.
  intros Hpayload w' before after.
  destruct (ObjectId_isValid (ir_id req)) eqn:Hvalid.
  2: { unfold deleteExpense in Hpayload. rewrite Hvalid in Hpayload. by simpl in Hpayload. }
  pose proof (deleteExpense_run ObjectId_isValid ObjectId_of req w Hvalid) as Hrun.
  assert (w' = (deleteExpense ObjectId_isValid ObjectId_of req w).2) as Hw by done.
  rewrite Hrun in Hpayload, Hw. simpl in Hpayload, Hw.
  destruct (array_find _ (w_db w)) as [e'|] eqn:Hfind; [|done].
  injection Hpayload as ->.
  apply array_find_Some in Hfind as (l1 & l2 & Hdb & [Hid Hu] & Hl1).
  assert (w_db w' = l1 ++ l2) as Hdb'
    by (rewrite Hw; simpl; rewrite Hdb; by apply remove_first_app).
  destruct (stats_of_docs (match_user (ir_userId req) (w_db w))) as (Hc & Ht & _).
  destruct (stats_of_docs (match_user (ir_userId req) (w_db w'))) as (Hc' & Ht' & _).
  subst before after. unfold expenseStats, totalStats. cbn [snd].
  rewrite Hc, Ht, Hc', Ht', Hdb, Hdb'. unfold match_user.
  rewrite !filter_app, filter_cons_True by done.
  split; [|split; [|split; [|done]]].
  - rewrite !length_app. simpl. lia.
  - rewrite !fmap_app, fmap_cons, !sumQ_app, sumQ_cons. lra.
  - rewrite elem_of_app, elem_of_cons. tauto.
Qed.

Lemma delete_expense_stats_witness :
  let req := {| ir_userId := "u"; ir_id := "64b0f1a2c3d4e5f601234567" |} in
  let e := expense "64b0f1a2c3d4e5f601234567" 5 7 FOOD "u" in
  let w := world [e; expense "64b0f1a2c3d4e5f601234568" 6 8 FOOD "u"] 0 0 in
  let w' := (deleteExpense hex24 (fun s => s) req w).2 in
  let before := (expenseStats (w_tz w) 9 (ir_userId req) (w_db w)).2 in
  let after := (expenseStats (w_tz w') 9 (ir_userId req) (w_db w')).2 in
  sg_totalCount before = S (sg_totalCount after)
  /\ (sg_totalAmount before == sg_totalAmount after + e_amount e)%Q
  /\ e ∈ w_db w /\ e_userId e = ir_userId req.
Proof.
  intros req e w.
  apply (delete_expense_stats hex24 (fun s => s) req w e 9).
  vm_compute. reflexivity.
Defined.

(** ** Defaults of the report parameters *)


(** ** The error handler *)

(** errorHandler always answers with success false, a message that is not
    empty and a status that is not 0; the stack is sent in development only.
    A JWT error is answered 401, whatever else the error carries; a mongoose
    validation error that is no JWT error is answered 400; a duplicate key
    error that is neither is answered 400 and names the first duplicated
    field; a cast error without a duplicate key is answered 404; an error of
    none of these kinds keeps its own statusCode and message, with 500 for a
    missing or zero code and Server Error for an empty message. *)
Theorem error_handler_reply (development : bool) (err : CustomError) :
  let r := errorHandler development err in
  let jwt := err_name err = "JsonWebTokenError" \/ err_name err = "TokenExpiredError" in
  let validation :=
    err_name err = "ValidationError" /\ err_class err = ValidationError_class in
  let cast := err_name err = "CastError" /\ err_class err = CastError_class in
  let duplicate := err_code err = Some 11000 in
  er_success r = false
  /\ er_message r <> ""
  /\ er_status r <> 0
  /\ (development = false -> er_stack r = None)
  /\ (jwt -> er_status r = 401
             /\ (er_message r = "Invalid token" \/ er_message r = "Token expired"))
  /\ (validation -> ~ jwt -> er_status r = 400)
  /\ (duplicate -> ~ jwt -> ~ validation ->
      er_status r = 400
      /\ exists field, er_message r = field +:+ " already exists"
                       /\ (forall k ks, err_keyValue err = Some (k :: ks) -> field = k))
  /\ (cast -> ~ duplicate -> er_status r = 404 /\ er_message r = "Resource not found")
  /\ (~ jwt -> ~ validation -> ~ cast -> ~ duplicate ->
      er_status r = match err_statusCode err with
                    | Some c => if c =? 0 then 500 else c
                    | None => 500
                    end
      /\ er_message r = if bool_decide (err_message err = "") then "Server Error"
                        else err_message err).
Proof.
  intros r jwt validation cast duplicate. subst r jwt validation cast duplicate.
  unfold errorHandler. cbn [er_success er_message er_status er_stack].
  split; [done|]. split; [by case_bool_decide|]. split.
  { destruct (if bool_decide (err_name err = "TokenExpiredError") then _ else _) as [m [c|]];
      cbn [snd]; [|done].
    destruct (c =? 0) eqn:Hc; [done|]. by apply Z.eqb_neq in Hc. }
  split; [by intros ->|].
  split.
  { intros [Hn|Hn]; rewrite Hn.
    - rewrite (bool_decide_true ("JsonWebTokenError" = "JsonWebTokenError")) by done.
      rewrite (bool_decide_false ("JsonWebTokenError" = "TokenExpiredError")) by done.
      cbn. split; [done|by left].
    - rewrite (bool_decide_true ("TokenExpiredError" = "TokenExpiredError")) by done.
      cbn. split; [done|by right]. }
  split.
  { intros Hv Hj. rewrite (bool_decide_true _ Hv).
    rewrite (bool_decide_false (err_name err = "JsonWebTokenError")) by tauto.
    rewrite (bool_decide_false (err_name err = "TokenExpiredError")) by tauto.
    done. }
  split.
  { intros Hd Hj Hv. rewrite (bool_decide_true _ Hd), (bool_decide_false _ Hv).
    rewrite (bool_decide_false (err_name err = "JsonWebTokenError")) by tauto.
    rewrite (bool_decide_false (err_name err = "TokenExpiredError")) by tauto.
    cbn [fst snd]. split; [done|].
    exists (default "undefined" (head (default [] (err_keyValue err)))). split.
    - rewrite bool_decide_false; [done|].
      by destruct (default "undefined" (head (default [] (err_keyValue err)))).
    - by intros k ks ->. }
  split.
  { intros Hc Hd. rewrite (bool_decide_true _ Hc), (bool_decide_false _ Hd).
    destruct Hc as [Hn _]. rewrite Hn.
    rewrite (bool_decide_false (_ /\ _)) by (by intros [? _]).
    rewrite (bool_decide_false ("CastError" = "JsonWebTokenError")) by done.
    rewrite (bool_decide_false ("CastError" = "TokenExpiredError")) by done.
    done. }
  intros Hj Hv Hc Hd.
  rewrite (bool_decide_false _ Hc), (bool_decide_false _ Hd), (bool_decide_false _ Hv).
  rewrite (bool_decide_false (err_name err = "JsonWebTokenError")) by tauto.
  rewrite (bool_decide_false (err_name err = "TokenExpiredError")) by tauto.
  done.
Qed.
